(** * go-dropbox: the [Files] client of package [dropbox] (files.go)

  The package is a thin facade: every method hands its input record to a
  transport primitive of the embedded [*Client] ([call] or [download]),
  and either decodes the JSON response body into the output record or
  hands the raw body to the caller.

  The development has three layers:
  - [Go]: the values of the Go runtime and standard library the package
    relies on (errors, [time.Time], [io] streams, and the part of
    [encoding/json] that reads struct tags);
  - the records of files.go with their struct tags, and the ten methods
    of [Files], written over a small state monad with a trace;
  - the properties of the facade. *)

From Stdlib Require Import NArith Ascii String List.
From stdpp Require Import base option list gmap strings pretty.

Local Open Scope string_scope.
Local Open Scope list_scope.

#[local] Set Warnings "-register-all".

(** ** Go runtime and standard library *)

Module Go.

(** Values of the interface type [error] that occur here; [nil] is
    [None : option error].  [Errorf] stands for any error made by code
    outside this file (the transport). *)
Inductive error : Type :=
| EOF                                          (* io.EOF *)
| SyntaxError                                  (* *json.SyntaxError, io.ErrUnexpectedEOF *)
| UnmarshalTypeError (value type_ : string)    (* *json.UnmarshalTypeError *)
| ParseError (value : string)                  (* *time.ParseError, as wrapped by Time.UnmarshalJSON *)
| ErrBodyClosed                                (* read on a closed body *)
| Errorf (msg : string).

#[global] Instance error_eq_dec : EqDecision error.
Proof. solve_decision. Defined.

(** [uint64]: a natural number below 2^64. *)
Definition uint64 := N.
Bind Scope N_scope with uint64.
Definition maxUint64 : N := 18446744073709551615.

Definition is_digit (c : ascii) : bool :=
  (48 <=? nat_of_ascii c)%nat && (nat_of_ascii c <=? 57)%nat.

Definition digit_val (c : ascii) : N := N.of_nat (nat_of_ascii c - 48).

(** Decimal value of a run of digits, most significant first. *)
Fixpoint digits_val (acc : N) (s : string) : N :=
  match s with
  | EmptyString => acc
  | String c r => digits_val (10 * acc + digit_val c)%N r
  end.

Fixpoint all_digits (s : string) : bool :=
  match s with
  | EmptyString => true
  | String c r => is_digit c && all_digits r
  end.

(** [strconv.ParseUint(s, 10, 64)]: [None] for a syntax or range error. *)
Definition ParseUint (s : string) : option uint64 :=
  match s with
  | EmptyString => None
  | _ => if all_digits s
         then let n := digits_val 0 s in
              if (n <=? maxUint64)%N then Some n else None
         else None
  end.

(** [time.Time].  The package only stores instants and moves them through
    JSON, so an instant is represented by its RFC 3339 text in UTC with
    second resolution, the form the remote API uses. *)
Record Time : Type := mkTime { RFC3339 : string }.

#[global] Instance Time_eq_dec : EqDecision Time.
Proof. solve_decision. Defined.

(** The zero value [time.Time{}]: January 1, year 1, 00:00:00 UTC. *)
Definition zeroTime : Time := mkTime "0001-01-01T00:00:00Z".

Definition IsZero (t : Time) : bool := bool_decide (t = zeroTime).

Definition two_digits (a b : ascii) : option N :=
  if is_digit a && is_digit b then Some (10 * digit_val a + digit_val b)%N
  else None.

Definition isLeap (y : N) : bool :=
  ((y mod 4 =? 0) && (negb (y mod 100 =? 0) || (y mod 400 =? 0)))%N.

Definition daysIn (month year : N) : N :=
  match month with
  | 2 => if isLeap year then 29 else 28
  | 4 | 6 | 9 | 11 => 30
  | _ => 31
  end%N.

(** [time.Parse(time.RFC3339, s)] on texts of the shape
    [YYYY-MM-DDTHH:MM:SSZ]; other shapes (fractions of a second, numeric
    zone offsets) are outside the model and are reported as not parsed. *)
Definition parseRFC3339 (s : string) : option Time :=
  match list_ascii_of_string s with
  | [y1; y2; y3; y4; d1; m1; m2; d2; a1; a2; t; h1; h2; c1; n1; n2; c2; s1; s2; z] =>
      if bool_decide (d1 = "-"%char) && bool_decide (d2 = "-"%char)
         && bool_decide (t = "T"%char) && bool_decide (c1 = ":"%char)
         && bool_decide (c2 = ":"%char) && bool_decide (z = "Z"%char)
         && all_digits (string_of_list_ascii [y1; y2; y3; y4])
      then
        let year := digits_val 0 (string_of_list_ascii [y1; y2; y3; y4]) in
        match two_digits m1 m2, two_digits a1 a2, two_digits h1 h2,
              two_digits n1 n2, two_digits s1 s2 with
        | Some mo, Some da, Some ho, Some mi, Some se =>
            if ((1 <=? mo) && (mo <=? 12) && (1 <=? da) && (da <=? daysIn mo year)
                && (ho <? 24) && (mi <? 60) && (se <? 60))%N
            then Some (mkTime s) else None
        | _, _, _, _, _ => None
        end
      else None
  | _ => None
  end.

(** Strings are sequences of bytes.  Package unicode/utf8 reads them as
    UTF-8: [rune_len s] is the number of bytes of the well-formed encoding
    of a code point at the front of [s] (1 to 4), or 0 when [s] is empty
    or starts with a byte that begins none (a stray continuation byte, a
    truncated or overlong encoding, a surrogate, a code point above
    U+10FFFF); this is when [utf8.DecodeRuneInString] returns
    [(RuneError, 1)] or [(RuneError, 0)]. *)
Definition byte_in (lo hi : nat) (c : ascii) : bool :=
  (lo <=? nat_of_ascii c)%nat && (nat_of_ascii c <=? hi)%nat.

Definition rune_len (s : string) : nat :=
  match s with
  | EmptyString => 0
  | String a t =>
      if byte_in 0 127 a then 1
      else
        match t with
        | EmptyString => 0
        | String b t2 =>
            if byte_in 194 223 a then (if byte_in 128 191 b then 2 else 0)
            else
              match t2 with
              | EmptyString => 0
              | String c t3 =>
                  if byte_in 224 239 a then
                    if (if byte_in 224 224 a then byte_in 160 191 b
                        else if byte_in 237 237 a then byte_in 128 159 b
                        else byte_in 128 191 b)
                       && byte_in 128 191 c
                    then 3 else 0
                  else
                    match t3 with
                    | EmptyString => 0
                    | String d _ =>
                        if byte_in 240 244 a
                           && (if byte_in 240 240 a then byte_in 144 191 b
                               else if byte_in 244 244 a then byte_in 128 143 b
                               else byte_in 128 191 b)
                           && byte_in 128 191 c && byte_in 128 191 d
                        then 4 else 0
                    end
              end
        end
  end.

(** The encoding of U+FFFD, the replacement character. *)
Definition replacement : string :=
  String (ascii_of_nat 239) (String (ascii_of_nat 191) (String (ascii_of_nat 189) EmptyString)).

(** [s] with every byte that begins no well-formed encoding replaced by
    U+FFFD; [k] is the number of bytes still to copy of the encoding that
    is being read.  This is what encoding/json does to the strings it
    writes and to the string literals it reads. *)
Fixpoint coerce_go (k : nat) (s : string) : string :=
  match s with
  | EmptyString => EmptyString
  | String a t =>
      match k with
      | S k' => String a (coerce_go k' t)
      | O =>
          match rune_len s with
          | O => replacement +:+ coerce_go 0 t
          | S n => String a (coerce_go n t)
          end
      end
  end.

Definition toValidUTF8 (s : string) : string := coerce_go 0 s.

(** [utf8.ValidString]. *)
Fixpoint valid_go (k : nat) (s : string) : bool :=
  match s with
  | EmptyString => true
  | String a t =>
      match k with
      | S k' => valid_go k' t
      | O =>
          match rune_len s with
          | O => false
          | S n => valid_go n t
          end
      end
  end.

Definition ValidString (s : string) : bool := valid_go 0 s.

(** [io.Reader] and [io.ReadCloser] values are references to stream
    objects; [nil] is [None]. *)
Definition handle := nat.

(** A stream object: its bytes, how many have been read, and whether
    [Close] was called. *)
Record stream : Type := mkStream {
  data : string;
  pos : nat;
  closed : bool
}.

Definition unread (s : stream) : string :=
  String.substring (pos s) (String.length (data s) - pos s) (data s).

End Go.

(** ** JSON texts and values *)

Module JSON.
Import Go.

Inductive value : Type :=
| JNull
| JBool (b : bool)
| JNumber (lit : string)      (* the literal, as the scanner keeps it *)
| JString (s : string)
| JArray (elems : list value)
| JObject (members : list (string * value)).

(** The name encoding/json gives a JSON value in an UnmarshalTypeError. *)
Definition describe (j : value) : string :=
  match j with
  | JNull => "null"
  | JBool _ => "bool"
  | JNumber _ => "number"
  | JString _ => "string"
  | JArray _ => "array"
  | JObject _ => "object"
  end.

Definition is_space (c : ascii) : bool :=
  match nat_of_ascii c with
  | 32 | 9 | 10 | 13 => true
  | _ => false
  end.

(** The double quote character. *)
Definition dquote : ascii := ascii_of_nat 34.

Definition is_quote (c : ascii) : bool := bool_decide (c = dquote).

Fixpoint skip_space (s : string) : string :=
  match s with
  | String c r => if is_space c then skip_space r else s
  | EmptyString => s
  end.

Fixpoint span_digits (s : string) : string * string :=
  match s with
  | String c r =>
      if is_digit c then let '(d, r') := span_digits r in (String c d, r')
      else (EmptyString, s)
  | EmptyString => (EmptyString, EmptyString)
  end.

(** A number literal: an optional minus sign; the digit 0 or a run of
    digits that starts with 1 to 9; an optional fraction (a dot and
    digits); an optional exponent (e or E, an optional sign, digits). *)
Definition scan_int (s : string) : option (string * string) :=
  match s with
  | String "0" r => Some ("0", r)
  | _ => match span_digits s with
         | (EmptyString, _) => None
         | (d, r) => Some (d, r)
         end
  end.

Definition scan_frac (s : string) : option (string * string) :=
  match s with
  | String "." r =>
      match span_digits r with
      | (EmptyString, _) => None
      | (d, r') => Some ("." +:+ d, r')
      end
  | _ => Some (EmptyString, s)
  end.

Definition scan_exp (s : string) : option (string * string) :=
  let digits (pre r : string) :=
    match span_digits r with
    | (EmptyString, _) => None
    | (d, r') => Some (pre +:+ d, r')
    end in
  match s with
  | String "e" (String "+" r) => digits "e+" r
  | String "e" (String "-" r) => digits "e-" r
  | String "e" r => digits "e" r
  | String "E" (String "+" r) => digits "E+" r
  | String "E" (String "-" r) => digits "E-" r
  | String "E" r => digits "E" r
  | _ => Some (EmptyString, s)
  end.

Definition scan_number (s : string) : option (string * string) :=
  let '(sign, s1) := match s with
                     | String "-" r => ("-", r)
                     | _ => (EmptyString, s)
                     end in
  '(i, s2) ← scan_int s1;
  '(f, s3) ← scan_frac s2;
  '(e, s4) ← scan_exp s3;
  Some (sign +:+ i +:+ f +:+ e, s4).

(** The text of a string literal after its opening quote.  Escapes other
    than [\u] are decoded; a [\u] escape is outside the model and is
    reported as not scanned. *)
Definition unescape (c : ascii) : option ascii :=
  if is_quote c then Some c else
  match c with
  | "\"%char => Some "\"%char
  | "/"%char => Some "/"%char
  | "b"%char => Some (ascii_of_nat 8)
  | "f"%char => Some (ascii_of_nat 12)
  | "n"%char => Some (ascii_of_nat 10)
  | "r"%char => Some (ascii_of_nat 13)
  | "t"%char => Some (ascii_of_nat 9)
  | _ => None
  end.

Fixpoint scan_string (s : string) : option (string * string) :=
  match s with
  | EmptyString => None
  | String "\" (String c r) =>
      c' ← unescape c;
      '(t, r') ← scan_string r;
      Some (String c' t, r')
  | String c r =>
      if is_quote c then Some (EmptyString, r)
      else if (nat_of_ascii c <? 32)%nat then None
      else '(t, r') ← scan_string r; Some (String c t, r')
  end.

Definition strip_prefix (p s : string) : option string :=
  if String.prefix p s
  then Some (String.substring (String.length p) (String.length s - String.length p) s)
  else None.

(** One JSON value at the front of [s], and the text after it.  [fuel]
    bounds the nesting and the number of members; the length of the text
    is always enough. *)
Fixpoint parse_value (fuel : nat) (s : string) : option (value * string) :=
  match fuel with
  | O => None
  | S fuel =>
      match skip_space s with
      | String "{" r =>
          match skip_space r with
          | String "}" r' => Some (JObject [], r')
          | r' => '(ms, r'') ← parse_members fuel r'; Some (JObject ms, r'')
          end
      | String "[" r =>
          match skip_space r with
          | String "]" r' => Some (JArray [], r')
          | r' => '(vs, r'') ← parse_elems fuel r'; Some (JArray vs, r'')
          end
      | String "t" _ as s' => r ← strip_prefix "true" s'; Some (JBool true, r)
      | String "f" _ as s' => r ← strip_prefix "false" s'; Some (JBool false, r)
      | String "n" _ as s' => r ← strip_prefix "null" s'; Some (JNull, r)
      | String c r as s' =>
          if is_quote c then '(t, r') ← scan_string r; Some (JString t, r')
          else '(lit, r') ← scan_number s'; Some (JNumber lit, r')
      | EmptyString => None
      end
  end
with parse_elems (fuel : nat) (s : string) : option (list value * string) :=
  match fuel with
  | O => None
  | S fuel =>
      '(v, r) ← parse_value fuel s;
      match skip_space r with
      | String "," r' => '(vs, r'') ← parse_elems fuel r'; Some (v :: vs, r'')
      | String "]" r' => Some ([v], r')
      | _ => None
      end
  end
with parse_members (fuel : nat) (s : string) : option (list (string * value) * string) :=
  match fuel with
  | O => None
  | S fuel =>
      match skip_space s with
      | String c r =>
          if is_quote c then
            '(k, r1) ← scan_string r;
            match skip_space r1 with
            | String ":" r2 =>
                '(v, r3) ← parse_value fuel r2;
                match skip_space r3 with
                | String "," r4 => '(ms, r5) ← parse_members fuel r4; Some ((k, v) :: ms, r5)
                | String "}" r4 => Some ([(k, v)], r4)
                | _ => None
                end
            | _ => None
            end
          else None
      | EmptyString => None
      end
  end.

Definition parse (s : string) : option (value * string) :=
  parse_value (S (String.length s)) s.

(** Text of a value, compact, as [json.Marshal] writes it (strings made
    of printable ASCII; only the quote and the backslash are escaped). *)
Fixpoint escape (s : string) : string :=
  match s with
  | EmptyString => EmptyString
  | String c r =>
      if is_quote c || bool_decide (c = "\"%char)
      then String "\" (String c (escape r))
      else String c (escape r)
  end.

Definition quote (s : string) : string :=
  String dquote (escape s +:+ String dquote EmptyString).

(** JSON texts are written below with an apostrophe wherever the text has a
    double quote; [text] puts the double quotes back. *)
Fixpoint text (s : string) : string :=
  match s with
  | EmptyString => EmptyString
  | String c r => String (if bool_decide (c = "'"%char) then dquote else c) (text r)
  end.

Fixpoint join (sep : string) (l : list string) : string :=
  match l with
  | [] => EmptyString
  | [x] => x
  | x :: r => x +:+ sep +:+ join sep r
  end.

Fixpoint render (j : value) : string :=
  match j with
  | JNull => "null"
  | JBool true => "true"
  | JBool false => "false"
  | JNumber lit => lit
  | JString s => quote s
  | JArray l => "[" +:+ join "," (map render l) +:+ "]"
  | JObject ms =>
      "{" +:+ join "," (map (fun kv => quote (fst kv) +:+ ":" +:+ render (snd kv)) ms) +:+ "}"
  end.

Definition keys (j : value) : list string :=
  match j with
  | JObject ms => map fst ms
  | _ => []
  end.

End JSON.

(** ** The part of encoding/json that reads struct declarations

    A struct type is presented to encoding/json by reflection: the list of
    its fields, each with its Go name, its struct tag and its type.  Here a
    field of a struct [T] carries, next to the name and the tag, the two
    things reflection gives for its type: how a JSON value is stored into
    the field, and how the field's value looks to the encoder. *)

Module EncodingJSON.
Import Go JSON.

(** What storing a JSON value reports: nothing; a type mismatch, which the
    decoder records (the first one wins) before it carries on with the rest
    of the input; or an error that stops the decoding. *)
Inductive status : Type :=
| Done
| Saved (e : error)
| Abort (e : error).

(** Status of [s1] followed by [s2]. *)
Definition and_then (s1 s2 : status) : status :=
  match s1, s2 with
  | Abort e, _ => Abort e
  | Saved _, Abort e' => Abort e'
  | Saved e, _ => Saved e
  | Done, s => s
  end.

Definition final_error (s : status) : option error :=
  match s with
  | Done => None
  | Saved e | Abort e => Some e
  end.

(** A field's value as the encoder sees it, by [reflect.Kind]; values of
    struct kind (which covers [time.Time]) come with their encoding. *)
Inductive view : Type :=
| VString (s : string)
| VBool (b : bool)
| VUint (n : N)
| VStruct (enc : value)
| VInterface (v : option value)
| VPointer (v : option value)
| VSlice (l : list value).

(** [isEmptyValue] of encode.go: what [omitempty] leaves out.  A value of
    struct kind is never empty. *)
Definition isEmptyValue (v : view) : bool :=
  match v with
  | VString s => (String.length s =? 0)%nat
  | VBool b => negb b
  | VUint n => (n =? 0)%N
  | VInterface o | VPointer o => bool_decide (o = None)
  | VSlice l => (length l =? 0)%nat
  | VStruct _ => false
  end.

(** The JSON value of a field's value.  A string is written as valid
    UTF-8: bytes that are not are replaced by U+FFFD. *)
Definition encode (v : view) : value :=
  match v with
  | VString s => JString (toValidUTF8 s)
  | VBool b => JBool b
  | VUint n => JNumber (pretty n)
  | VStruct enc => enc
  | VInterface o | VPointer o => default JNull o
  | VSlice l => JArray l
  end.

Record field (T : Type) : Type := Field {
  name : string;                       (* the Go field name *)
  tag : option string;                 (* the json struct tag, if the field has one *)
  store : value -> T -> T * status;
  view_of : T -> view
}.
Arguments Field {T}.
Arguments name {T}.
Arguments tag {T}.
Arguments store {T}.
Arguments view_of {T}.

(** [strings.Cut(s, ",")]. *)
Fixpoint cut_comma (s : string) : string * option string :=
  match s with
  | EmptyString => (EmptyString, None)
  | String "," r => (EmptyString, Some r)
  | String c r => let '(a, b) := cut_comma r in (String c a, b)
  end.

(** [tagOptions.Contains]. *)
Fixpoint options_contain (fuel : nat) (opts : option string) (o : string) : bool :=
  match fuel, opts with
  | S fuel, Some s =>
      let '(a, rest) := cut_comma s in
      bool_decide (a = o) || options_contain fuel rest o
  | _, _ => false
  end.

Definition is_letter (c : ascii) : bool :=
  let n := nat_of_ascii c in
  ((65 <=? n) && (n <=? 90) || (97 <=? n) && (n <=? 122))%nat.

(** [isValidTag] of encode.go, on ASCII. *)
Definition isValidTag (s : string) : bool :=
  match s with
  | EmptyString => false
  | _ => forallb (fun c => bool_decide (In c (list_ascii_of_string "!#$%&()*+-./:;<=>?@[]^_{|}~ "))
                           || is_letter c || is_digit c)
                 (list_ascii_of_string s)
  end.

(** The key of a field in JSON objects ([typeFields]): none when the tag
    is [-]; the name in the tag when it has a valid one; the Go field name
    otherwise. *)
Definition json_name {T} (f : field T) : option string :=
  match tag f with
  | Some t =>
      if bool_decide (t = "-") then None
      else let n := fst (cut_comma t) in
           Some (if isValidTag n then n else name f)
  | None => Some (name f)
  end.

Definition omitEmpty {T} (f : field T) : bool :=
  match tag f with
  | Some t => options_contain (String.length t) (snd (cut_comma t)) "omitempty"
  | None => false
  end.

(** *** Encoding *)

Definition encode_field {T} (v : T) (f : field T) : option (string * value) :=
  k ← json_name f;
  if omitEmpty f && isEmptyValue (view_of f v) then None
  else Some (k, encode (view_of f v)).

Definition encode_struct {T} (fs : list (field T)) (v : T) : value :=
  JObject (omap (encode_field v) fs).

(** *** Decoding *)

Definition lower (c : ascii) : ascii :=
  let n := nat_of_ascii c in
  if ((65 <=? n) && (n <=? 90))%nat then ascii_of_nat (n + 32) else c.

Fixpoint equalFold (a b : string) : bool :=
  match a, b with
  | EmptyString, EmptyString => true
  | String x a', String y b' => bool_decide (lower x = lower y) && equalFold a' b'
  | _, _ => false
  end.

(** The field an object key goes to: the one with exactly that key, or
    else one whose key matches it up to case; none if there is neither. *)
Definition find_field {T} (fs : list (field T)) (key : string) : option (field T) :=
  match List.find (fun f => bool_decide (json_name f = Some key)) fs with
  | Some f => Some f
  | None => List.find (fun f => from_option (fun n => equalFold n key) false (json_name f)) fs
  end.

(** A string literal is stored as valid UTF-8 as well. *)
Definition store_string (ty : string) (j : value) (cur : string) : string * status :=
  match j with
  | JString s => (toValidUTF8 s, Done)
  | JNull => (cur, Done)
  | _ => (cur, Saved (UnmarshalTypeError (describe j) ty))
  end.

Definition store_bool (j : value) (cur : bool) : bool * status :=
  match j with
  | JBool b => (b, Done)
  | JNull => (cur, Done)
  | _ => (cur, Saved (UnmarshalTypeError (describe j) "bool"))
  end.

Definition store_uint64 (j : value) (cur : uint64) : uint64 * status :=
  match j with
  | JNumber lit =>
      match ParseUint lit with
      | Some n => (n, Done)
      | None => (cur, Saved (UnmarshalTypeError ("number " +:+ lit) "uint64"))
      end
  | JNull => (cur, Done)
  | _ => (cur, Saved (UnmarshalTypeError (describe j) "uint64"))
  end.

(** [time.Time] has its own [UnmarshalJSON], which gets every JSON value
    meant for the field and whose error stops the decoding. *)
Definition store_Time (j : value) (cur : Time) : Time * status :=
  match j with
  | JNull => (cur, Done)
  | JString s =>
      match parseRFC3339 s with
      | Some t => (t, Done)
      | None => (zeroTime, Abort (ParseError s))
      end
  | _ => (cur, Abort (Errorf "Time.UnmarshalJSON: input is not a JSON string"))
  end.

Fixpoint store_members {T} (fs : list (field T)) (ms : list (string * value)) (v : T)
  : T * status :=
  match ms with
  | [] => (v, Done)
  | (k, j) :: rest =>
      match find_field fs k with
      | None => store_members fs rest v
      | Some f =>
          let '(v', st) := store f j v in
          match st with
          | Abort e => (v', Abort e)
          | _ => let '(v'', st') := store_members fs rest v' in (v'', and_then st st')
          end
      end
  end.

Definition store_struct {T} (ty : string) (fs : list (field T)) (j : value) (v : T)
  : T * status :=
  match j with
  | JObject ms => store_members fs ms v
  | JNull => (v, Done)
  | _ => (v, Saved (UnmarshalTypeError (describe j) ty))
  end.

(** A pointer: [null] makes it nil; any other value goes to what it points
    to, which is allocated first if the pointer is nil. *)
Definition store_ptr {T} (zero : T) (st : value -> T -> T * status)
    (j : value) (cur : option T) : option T * status :=
  match j with
  | JNull => (None, Done)
  | _ => let '(v, s) := st j (default zero cur) in (Some v, s)
  end.

(** The elements of an array go one by one into the slice, into the
    elements it has and then into new ones. *)
Fixpoint store_elems {T} (zero : T) (st : value -> T -> T * status)
    (js : list value) (cur : list T) : list T * status :=
  match js with
  | [] => ([], Done)
  | j :: js' =>
      let '(v, s) := st j (hd zero cur) in
      match s with
      | Abort e => (v :: tl cur, Abort e)
      | _ => let '(vs, s') := store_elems zero st js' (tl cur) in (v :: vs, and_then s s')
      end
  end.

Definition store_slice {T} (ty : string) (zero : T) (st : value -> T -> T * status)
    (j : value) (cur : list T) : list T * status :=
  match j with
  | JArray js => store_elems zero st js cur
  | JNull => ([], Done)
  | _ => (cur, Saved (UnmarshalTypeError (describe j) ty))
  end.

(** What [json.NewDecoder(body).Decode(&out)] does with the unread bytes of
    the body, for a pointer variable [out]: the new [out] and the error. *)
Class Decodable (T : Type) : Type :=
  decode : string -> option T -> option T * option error.

(** The decoder of encoding/json for a struct type given by its fields:
    the first JSON value of the input is scanned, which fails before
    anything is stored, and then stored through the pointer. *)
Definition Decode {T} (zero : T) (ty : string) (fs : list (field T)) : Decodable T :=
  fun input out =>
    match skip_space input with
    | EmptyString => (out, Some EOF)
    | _ =>
        match parse input with
        | None => (out, Some SyntaxError)
        | Some (j, _) =>
            let '(o, s) := store_ptr zero (store_struct ty fs) j out in
            (o, final_error s)
        end
    end.

End EncodingJSON.

(** ** The records of files.go

    One module per struct type: the record, a setter per field that the
    decoder or a method writes, the zero value, and [fields], the struct
    declaration as reflection presents it (Go name, json tag, type). *)

Import Go JSON EncodingJSON.

(** Fields by type. *)
Definition string_field {T} (ty n : string) (tg : option string)
    (get : T -> string) (set : string -> T -> T) : field T :=
  Field n tg (fun j v => let '(x, s) := store_string ty j (get v) in (set x v, s))
        (fun v => VString (get v)).

Definition bool_field {T} (n : string) (tg : option string)
    (get : T -> bool) (set : bool -> T -> T) : field T :=
  Field n tg (fun j v => let '(x, s) := store_bool j (get v) in (set x v, s))
        (fun v => VBool (get v)).

Definition uint64_field {T} (n : string) (tg : option string)
    (get : T -> uint64) (set : uint64 -> T -> T) : field T :=
  Field n tg (fun j v => let '(x, s) := store_uint64 j (get v) in (set x v, s))
        (fun v => VUint (get v)).

Definition Time_field {T} (n : string) (tg : option string)
    (get : T -> Time) (set : Time -> T -> T) : field T :=
  Field n tg (fun j v => let '(x, s) := store_Time j (get v) in (set x v, s))
        (fun v => VStruct (JString (RFC3339 (get v)))).

(** A field of a struct type [U] declared by [fs]. *)
Definition struct_field {T U} (ty : string) (fs : list (field U)) (n : string)
    (tg : option string) (get : T -> U) (set : U -> T -> T) : field T :=
  Field n tg (fun j v => let '(x, s) := store_struct ty fs j (get v) in (set x v, s))
        (fun v => VStruct (encode_struct fs (get v))).

(** A field of type pointer to a struct type [U]. *)
Definition ptr_field {T U} (zero : U) (ty : string) (fs : list (field U)) (n : string)
    (tg : option string) (get : T -> option U) (set : option U -> T -> T) : field T :=
  Field n tg
        (fun j v => let '(x, s) := store_ptr zero (store_struct ty fs) j (get v) in (set x v, s))
        (fun v => VPointer (encode_struct fs <$> get v)).

(** A field of type slice of pointers to a struct type [U]. *)
Definition ptr_slice_field {T U} (zero : U) (ty : string) (fs : list (field U)) (n : string)
    (tg : option string) (get : T -> list (option U)) (set : list (option U) -> T -> T)
  : field T :=
  Field n tg
        (fun j v =>
           let '(x, s) := store_slice ("[]*" +:+ ty) None
                            (store_ptr zero (store_struct ty fs)) j (get v) in
           (set x v, s))
        (fun v => VSlice (map (fun o => default JNull (encode_struct fs <$> o)) (get v))).

(** A field of a non-empty interface type ([io.Reader], [io.ReadCloser]):
    no JSON value other than [null] can be stored into it. *)
Definition interface_field {T} (ty n : string) (tg : option string)
    (get : T -> option handle) (set : option handle -> T -> T) : field T :=
  Field n tg
        (fun j v => match j with
                    | JNull => (set None v, Done)
                    | _ => (v, Saved (UnmarshalTypeError (describe j) ty))
                    end)
        (fun v => VInterface ((fun _ => JObject []) <$> get v)).

(** The fields an embedded struct gives to the struct that embeds it. *)
Definition embedded {T U} (get : T -> U) (set : U -> T -> T) (fs : list (field U))
  : list (field T) :=
  map (fun f => Field (name f) (tag f)
                      (fun j v => let '(u, s) := store f j (get v) in (set u v, s))
                      (fun v => view_of f (get v)))
      fs.

(** WriteMode determines what to do if the file already exists. *)
Definition WriteMode := string.
Definition WriteModeAdd : WriteMode := "add".
Definition WriteModeOverwrite : string := "overwrite".

(** SearchMode determines how a search is performed. *)
Definition SearchMode := string.
Definition SearchModeFilename : SearchMode := "filename".
Definition SearchModeFilenameAndContent : string := "filename_and_content".
Definition SearchModeDeletedFilename : string := "deleted_filename".

(** SearchMatchType represents the type of match made. *)
Definition SearchMatchType := string.
Definition SearchMatchFilename : SearchMatchType := "filename".
Definition SearchMatchContent : string := "content".
Definition SearchMatchBoth : string := "both".

(** Metadata for a file or folder. *)
Module Metadata.
Record t : Type := mk {
  Tag : string;
  Name : string;
  PathLower : string;
  ClientModified : Time;
  ServerModified : Time;
  Rev : string;
  Size : uint64;
  ID : string
}.
Definition zero : t := mk "" "" "" zeroTime zeroTime "" 0%N "".
Definition set_Tag (x : string) (m : t) : t :=
  mk x (Name m) (PathLower m) (ClientModified m) (ServerModified m) (Rev m) (Size m) (ID m).
Definition set_Name (x : string) (m : t) : t :=
  mk (Tag m) x (PathLower m) (ClientModified m) (ServerModified m) (Rev m) (Size m) (ID m).
Definition set_PathLower (x : string) (m : t) : t :=
  mk (Tag m) (Name m) x (ClientModified m) (ServerModified m) (Rev m) (Size m) (ID m).
Definition set_ClientModified (x : Time) (m : t) : t :=
  mk (Tag m) (Name m) (PathLower m) x (ServerModified m) (Rev m) (Size m) (ID m).
Definition set_ServerModified (x : Time) (m : t) : t :=
  mk (Tag m) (Name m) (PathLower m) (ClientModified m) x (Rev m) (Size m) (ID m).
Definition set_Rev (x : string) (m : t) : t :=
  mk (Tag m) (Name m) (PathLower m) (ClientModified m) (ServerModified m) x (Size m) (ID m).
Definition set_Size (x : uint64) (m : t) : t :=
  mk (Tag m) (Name m) (PathLower m) (ClientModified m) (ServerModified m) (Rev m) x (ID m).
Definition set_ID (x : string) (m : t) : t :=
  mk (Tag m) (Name m) (PathLower m) (ClientModified m) (ServerModified m) (Rev m) (Size m) x.
Definition fields : list (field t) := [
  string_field "string" "Tag" (Some ".tag") Tag set_Tag;
  string_field "string" "Name" (Some "name") Name set_Name;
  string_field "string" "PathLower" (Some "path_lower") PathLower set_PathLower;
  Time_field "ClientModified" (Some "client_modified") ClientModified set_ClientModified;
  Time_field "ServerModified" (Some "server_modified") ServerModified set_ServerModified;
  string_field "string" "Rev" (Some "rev") Rev set_Rev;
  uint64_field "Size" (Some "size") Size set_Size;
  string_field "string" "ID" (Some "id") ID set_ID
].
#[global] Instance eq_dec : EqDecision t.
Proof. solve_decision. Defined.
End Metadata.

(** GetMetadataInput request input. *)
Module GetMetadataInput.
Record t : Type := mk {
  Path : string;
  IncludeMediaInfo : bool
}.
Definition zero : t := mk "" false.
Definition fields : list (field t) := [
  string_field "string" "Path" (Some "path") Path (fun x v => mk x (IncludeMediaInfo v));
  bool_field "IncludeMediaInfo" (Some "include_media_info") IncludeMediaInfo
             (fun x v => mk (Path v) x)
].
#[global] Instance eq_dec : EqDecision t.
Proof. solve_decision. Defined.
End GetMetadataInput.

(** GetMetadataOutput request output. *)
Module GetMetadataOutput.
Record t : Type := mk { Metadata : Metadata.t }.
Definition zero : t := mk Metadata.zero.
Definition fields : list (field t) := embedded Metadata (fun m _ => mk m) Metadata.fields.
#[global] Instance eq_dec : EqDecision t.
Proof. solve_decision. Defined.
End GetMetadataOutput.

(** CreateFolderInput request input. *)
Module CreateFolderInput.
Record t : Type := mk { Path : string }.
Definition zero : t := mk "".
Definition fields : list (field t) := [
  string_field "string" "Path" (Some "path") Path (fun x _ => mk x)
].
#[global] Instance eq_dec : EqDecision t.
Proof. solve_decision. Defined.
End CreateFolderInput.

(** CreateFolderOutput request output. *)
Module CreateFolderOutput.
Record t : Type := mk {
  Name : string;
  PathLower : string;
  ID : string
}.
Definition zero : t := mk "" "" "".
Definition fields : list (field t) := [
  string_field "string" "Name" (Some "name") Name (fun x v => mk x (PathLower v) (ID v));
  string_field "string" "PathLower" (Some "path_lower") PathLower
               (fun x v => mk (Name v) x (ID v));
  string_field "string" "ID" (Some "id") ID (fun x v => mk (Name v) (PathLower v) x)
].
#[global] Instance eq_dec : EqDecision t.
Proof. solve_decision. Defined.
End CreateFolderOutput.

(** DeleteInput request input. *)
Module DeleteInput.
Record t : Type := mk { Path : string }.
Definition zero : t := mk "".
Definition fields : list (field t) := [
  string_field "string" "Path" (Some "path") Path (fun x _ => mk x)
].
#[global] Instance eq_dec : EqDecision t.
Proof. solve_decision. Defined.
End DeleteInput.

(** DeleteOutput request output. *)
Module DeleteOutput.
Record t : Type := mk { Metadata : Metadata.t }.
Definition zero : t := mk Metadata.zero.
Definition fields : list (field t) := embedded Metadata (fun m _ => mk m) Metadata.fields.
#[global] Instance eq_dec : EqDecision t.
Proof. solve_decision. Defined.
End DeleteOutput.

(** CopyInput request input. *)
Module CopyInput.
Record t : Type := mk {
  FromPath : string;
  ToPath : string
}.
Definition zero : t := mk "" "".
Definition fields : list (field t) := [
  string_field "string" "FromPath" (Some "from_path") FromPath (fun x v => mk x (ToPath v));
  string_field "string" "ToPath" (Some "to_path") ToPath (fun x v => mk (FromPath v) x)
].
#[global] Instance eq_dec : EqDecision t.
Proof. solve_decision. Defined.
End CopyInput.

(** CopyOutput request output. *)
Module CopyOutput.
Record t : Type := mk { Metadata : Metadata.t }.
Definition zero : t := mk Metadata.zero.
Definition fields : list (field t) := embedded Metadata (fun m _ => mk m) Metadata.fields.
#[global] Instance eq_dec : EqDecision t.
Proof. solve_decision. Defined.
End CopyOutput.

(** MoveInput request input. *)
Module MoveInput.
Record t : Type := mk {
  FromPath : string;
  ToPath : string
}.
Definition zero : t := mk "" "".
Definition fields : list (field t) := [
  string_field "string" "FromPath" (Some "from_path") FromPath (fun x v => mk x (ToPath v));
  string_field "string" "ToPath" (Some "to_path") ToPath (fun x v => mk (FromPath v) x)
].
#[global] Instance eq_dec : EqDecision t.
Proof. solve_decision. Defined.
End MoveInput.

(** MoveOutput request output. *)
Module MoveOutput.
Record t : Type := mk { Metadata : Metadata.t }.
Definition zero : t := mk Metadata.zero.
Definition fields : list (field t) := embedded Metadata (fun m _ => mk m) Metadata.fields.
#[global] Instance eq_dec : EqDecision t.
Proof. solve_decision. Defined.
End MoveOutput.

(** RestoreInput request input. *)
Module RestoreInput.
Record t : Type := mk {
  Path : string;
  Rev : string
}.
Definition zero : t := mk "" "".
Definition fields : list (field t) := [
  string_field "string" "Path" (Some "path") Path (fun x v => mk x (Rev v));
  string_field "string" "Rev" (Some "rev") Rev (fun x v => mk (Path v) x)
].
#[global] Instance eq_dec : EqDecision t.
Proof. solve_decision. Defined.
End RestoreInput.

(** RestoreOutput request output. *)
Module RestoreOutput.
Record t : Type := mk { Metadata : Metadata.t }.
Definition zero : t := mk Metadata.zero.
Definition fields : list (field t) := embedded Metadata (fun m _ => mk m) Metadata.fields.
#[global] Instance eq_dec : EqDecision t.
Proof. solve_decision. Defined.
End RestoreOutput.

(** ListFolderInput request input. *)
Module ListFolderInput.
Record t : Type := mk {
  Path : string;
  Recursive : bool;
  IncludeMediaInfo : bool;
  IncludeDeleted : bool
}.
Definition zero : t := mk "" false false false.
Definition fields : list (field t) := [
  string_field "string" "Path" (Some "path") Path
               (fun x v => mk x (Recursive v) (IncludeMediaInfo v) (IncludeDeleted v));
  bool_field "Recursive" (Some "recursive") Recursive
             (fun x v => mk (Path v) x (IncludeMediaInfo v) (IncludeDeleted v));
  bool_field "IncludeMediaInfo" (Some "include_media_info") IncludeMediaInfo
             (fun x v => mk (Path v) (Recursive v) x (IncludeDeleted v));
  bool_field "IncludeDeleted" (Some "include_deleted") IncludeDeleted
             (fun x v => mk (Path v) (Recursive v) (IncludeMediaInfo v) x)
].
#[global] Instance eq_dec : EqDecision t.
Proof. solve_decision. Defined.
End ListFolderInput.

(** ListFolderOutput request output.  [Entries] is declared without a
    struct tag. *)
Module ListFolderOutput.
Record t : Type := mk {
  Cursor : string;
  HasMore : bool;
  Entries : list (option Metadata.t)
}.
Definition zero : t := mk "" false [].
Definition fields : list (field t) := [
  string_field "string" "Cursor" (Some "cursor") Cursor
               (fun x v => mk x (HasMore v) (Entries v));
  bool_field "HasMore" (Some "has_more") HasMore
             (fun x v => mk (Cursor v) x (Entries v));
  ptr_slice_field Metadata.zero "dropbox.Metadata" Metadata.fields "Entries" None Entries
                  (fun x v => mk (Cursor v) (HasMore v) x)
].
#[global] Instance eq_dec : EqDecision t.
Proof. solve_decision. Defined.
End ListFolderOutput.

(** SearchMatch represents a matched file or folder.  [MatchType] is a
    field of an anonymous struct type with the one field [Tag]. *)
Module SearchMatch.
Record MatchType_t : Type := mkMatchType { Tag : SearchMatchType }.
Record t : Type := mk {
  MatchType : MatchType_t;
  Metadata : option Metadata.t
}.
Definition zero : t := mk (mkMatchType "") None.
Definition MatchType_fields : list (field MatchType_t) := [
  string_field "dropbox.SearchMatchType" "Tag" (Some ".tag") Tag (fun x _ => mkMatchType x)
].
Definition fields : list (field t) := [
  struct_field "struct { Tag dropbox.SearchMatchType }" MatchType_fields
               "MatchType" (Some "match_type") MatchType (fun x v => mk x (Metadata v));
  ptr_field Metadata.zero "dropbox.Metadata" Metadata.fields
            "Metadata" (Some "metadata") Metadata (fun x v => mk (MatchType v) x)
].
#[global] Instance MatchType_eq_dec : EqDecision MatchType_t.
Proof. solve_decision. Defined.
#[global] Instance eq_dec : EqDecision t.
Proof. solve_decision. Defined.
End SearchMatch.

(** SearchInput request input. *)
Module SearchInput.
Record t : Type := mk {
  Path : string;
  Query : string;
  Start : uint64;
  MaxResults : uint64;
  Mode : SearchMode
}.
Definition zero : t := mk "" "" 0%N 0%N "".
Definition set_Mode (x : SearchMode) (v : t) : t :=
  mk (Path v) (Query v) (Start v) (MaxResults v) x.
Definition fields : list (field t) := [
  string_field "string" "Path" (Some "path") Path
               (fun x v => mk x (Query v) (Start v) (MaxResults v) (Mode v));
  string_field "string" "Query" (Some "query") Query
               (fun x v => mk (Path v) x (Start v) (MaxResults v) (Mode v));
  uint64_field "Start" (Some "start,omitempty") Start
               (fun x v => mk (Path v) (Query v) x (MaxResults v) (Mode v));
  uint64_field "MaxResults" (Some "max_results,omitempty") MaxResults
               (fun x v => mk (Path v) (Query v) (Start v) x (Mode v));
  string_field "dropbox.SearchMode" "Mode" (Some "mode") Mode set_Mode
].
#[global] Instance eq_dec : EqDecision t.
Proof. solve_decision. Defined.
End SearchInput.

(** SearchOutput request output. *)
Module SearchOutput.
Record t : Type := mk {
  Matches : list (option SearchMatch.t);
  More : bool;
  Start : uint64
}.
Definition zero : t := mk [] false 0%N.
Definition fields : list (field t) := [
  ptr_slice_field SearchMatch.zero "dropbox.SearchMatch" SearchMatch.fields
                  "Matches" (Some "matches") Matches (fun x v => mk x (More v) (Start v));
  bool_field "More" (Some "more") More (fun x v => mk (Matches v) x (Start v));
  uint64_field "Start" (Some "start") Start (fun x v => mk (Matches v) (More v) x)
].
#[global] Instance eq_dec : EqDecision t.
Proof. solve_decision. Defined.
End SearchOutput.

(** UploadInput request input. *)
Module UploadInput.
Record t : Type := mk {
  Path : string;
  Mode : WriteMode;
  AutoRename : bool;
  Mute : bool;
  ClientModified : Time;
  Reader : option handle
}.
Definition zero : t := mk "" "" false false zeroTime None.
Definition fields : list (field t) := [
  string_field "string" "Path" (Some "path") Path
    (fun x v => mk x (Mode v) (AutoRename v) (Mute v) (ClientModified v) (Reader v));
  string_field "dropbox.WriteMode" "Mode" (Some "mode") Mode
    (fun x v => mk (Path v) x (AutoRename v) (Mute v) (ClientModified v) (Reader v));
  bool_field "AutoRename" (Some "autorename") AutoRename
    (fun x v => mk (Path v) (Mode v) x (Mute v) (ClientModified v) (Reader v));
  bool_field "Mute" (Some "mute") Mute
    (fun x v => mk (Path v) (Mode v) (AutoRename v) x (ClientModified v) (Reader v));
  Time_field "ClientModified" (Some "client_modified,omitempty") ClientModified
    (fun x v => mk (Path v) (Mode v) (AutoRename v) (Mute v) x (Reader v));
  interface_field "io.Reader" "Reader" (Some "-") Reader
    (fun x v => mk (Path v) (Mode v) (AutoRename v) (Mute v) (ClientModified v) x)
].
#[global] Instance eq_dec : EqDecision t.
Proof. solve_decision. Defined.
End UploadInput.

(** UploadOutput request output. *)
Module UploadOutput.
Record t : Type := mk { Metadata : Metadata.t }.
Definition zero : t := mk Metadata.zero.
Definition fields : list (field t) := embedded Metadata (fun m _ => mk m) Metadata.fields.
#[global] Instance eq_dec : EqDecision t.
Proof. solve_decision. Defined.
End UploadOutput.

(** DownloadInput request input. *)
Module DownloadInput.
Record t : Type := mk { Path : string }.
Definition zero : t := mk "".
Definition fields : list (field t) := [
  string_field "string" "Path" (Some "path") Path (fun x _ => mk x)
].
#[global] Instance eq_dec : EqDecision t.
Proof. solve_decision. Defined.
End DownloadInput.

(** DownloadOutput request input. *)
Module DownloadOutput.
Record t : Type := mk { Body : option handle }.
Definition zero : t := mk None.
Definition fields : list (field t) := [
  interface_field "io.ReadCloser" "Body" None Body (fun x _ => mk x)
].
#[global] Instance eq_dec : EqDecision t.
Proof. solve_decision. Defined.
End DownloadOutput.

(** The input records as values of [interface{}], which is how the
    transport primitives receive them, and as the contents of the memory
    cells the methods' [in] pointers point to. *)
Inductive Input : Type :=
| InGetMetadata (v : GetMetadataInput.t)
| InCreateFolder (v : CreateFolderInput.t)
| InDelete (v : DeleteInput.t)
| InCopy (v : CopyInput.t)
| InMove (v : MoveInput.t)
| InRestore (v : RestoreInput.t)
| InListFolder (v : ListFolderInput.t)
| InSearch (v : SearchInput.t)
| InUpload (v : UploadInput.t)
| InDownload (v : DownloadInput.t).

#[global] Instance Input_eq_dec : EqDecision Input.
Proof. solve_decision. Defined.

(** [json.Marshal(in)] for a pointer [in] to an input record: [null] for
    the nil pointer.  This is what the struct tags of the input records
    are for: the text a transport sends as the request's JSON. *)
Definition Marshal (i : option Input) : value :=
  match i with
  | None => JNull
  | Some (InGetMetadata v) => encode_struct GetMetadataInput.fields v
  | Some (InCreateFolder v) => encode_struct CreateFolderInput.fields v
  | Some (InDelete v) => encode_struct DeleteInput.fields v
  | Some (InCopy v) => encode_struct CopyInput.fields v
  | Some (InMove v) => encode_struct MoveInput.fields v
  | Some (InRestore v) => encode_struct RestoreInput.fields v
  | Some (InListFolder v) => encode_struct ListFolderInput.fields v
  | Some (InSearch v) => encode_struct SearchInput.fields v
  | Some (InUpload v) => encode_struct UploadInput.fields v
  | Some (InDownload v) => encode_struct DownloadInput.fields v
  end.

(** ** State, effects and the transport *)

(** Addresses of input records; a pointer is an address or nil. *)
Definition loc := nat.
Definition ptr := option loc.

(** What exists outside the local memory: the stream objects, and the
    state [Srv] of the connection and of the remote service. *)
Record Net (Srv : Type) : Type := mkNet {
  streams : gmap handle stream;
  server : Srv
}.
Arguments mkNet {Srv}.
Arguments streams {Srv}.
Arguments server {Srv}.

(** The state a method runs in: the local memory that holds the caller's
    input records, and the rest. *)
Record World (Srv : Type) : Type := mkWorld {
  heap : gmap loc Input;
  net : Net Srv
}.
Arguments mkWorld {Srv}.
Arguments heap {Srv}.
Arguments net {Srv}.

(** The transport primitives of [*Client], which a [Files] value embeds.
    They are defined in another file of the package; here they are fields
    of the client.  A primitive gets the endpoint, the input record as the
    pointer shows it at the time of the call, for [download] the reader of
    the request body, and returns a response body and an error.  It may
    do anything to the streams and to the remote end; it gets the record
    to marshal it, and cannot write to the local memory. *)
Record Client (Srv : Type) : Type := mkClient {
  call : string -> option Input -> Net Srv -> (option handle * option error) * Net Srv;
  download : string -> option Input -> option handle -> Net Srv
             -> (option handle * option error) * Net Srv
}.
Arguments mkClient {Srv}.
Arguments call {Srv}.
Arguments download {Srv}.

(** What a method does that can be seen from outside, in order: the calls
    of the transport primitives with what they got and returned, the
    decoding of a body with the bytes read from it (none on a read error)
    and the decoder's error, and the closing of a body. *)
Inductive event : Type :=
| EvCall (path : string) (req : option Input) (body : option handle) (err : option error)
| EvDownload (path : string) (req : option Input) (r : option handle)
             (body : option handle) (err : option error)
| EvDecode (body : handle) (read : option string) (err : option error)
| EvClose (body : handle).

#[global] Instance event_eq_dec : EqDecision event.
Proof. solve_decision. Defined.

(** A call returns or panics. *)
Inductive outcome (A : Type) : Type :=
| Returned (a : A)
| Panicked.
Arguments Returned {A}.
Arguments Panicked {A}.

Record result (Srv A : Type) : Type := mkResult {
  out : outcome A;
  world : World Srv;
  events : list event
}.
Arguments mkResult {Srv A}.
Arguments out {Srv A}.
Arguments world {Srv A}.
Arguments events {Srv A}.

Definition M (Srv A : Type) : Type := World Srv -> result Srv A.

#[global] Instance M_ret {Srv} : MRet (M Srv) :=
  fun A a w => mkResult (Returned a) w [].

#[global] Instance M_bind {Srv} : MBind (M Srv) :=
  fun A B k m w =>
    let r := m w in
    match out r with
    | Returned a =>
        let r' := k a (world r) in
        mkResult (out r') (world r') (events r ++ events r')
    | Panicked => mkResult Panicked (world r) (events r)
    end.

Definition panic {Srv A} : M Srv A := fun w => mkResult Panicked w [].

(** The response body and the error of an event of the transport. *)
Definition transport_result (e : event) : option (option handle * option error) :=
  match e with
  | EvCall _ _ b err | EvDownload _ _ _ b err => Some (b, err)
  | _ => None
  end.

Section Files.
Context {Srv : Type}.

(** The receiver [c *Files]; its methods [call] and [download] are those
    of the embedded [*Client]. *)
Variable c : Client Srv.

Context {dec_GetMetadata : Decodable GetMetadataOutput.t}
        {dec_CreateFolder : Decodable CreateFolderOutput.t}
        {dec_Delete : Decodable DeleteOutput.t}
        {dec_Copy : Decodable CopyOutput.t}
        {dec_Move : Decodable MoveOutput.t}
        {dec_Restore : Decodable RestoreOutput.t}
        {dec_ListFolder : Decodable ListFolderOutput.t}
        {dec_Search : Decodable SearchOutput.t}
        {dec_Upload : Decodable UploadOutput.t}.

(** [c.call(path, in)] *)
Definition c_call (path : string) (in_ : ptr) : M Srv (option handle * option error) :=
  fun w =>
    let req := in_ ≫= (heap w !!.) in
    let '(r, n) := call c path req (net w) in
    mkResult (Returned r) (mkWorld (heap w) n) [EvCall path req r.1 r.2].

(** [c.download(path, in, r)] *)
Definition c_download (path : string) (in_ : ptr) (r : option handle)
  : M Srv (option handle * option error) :=
  fun w =>
    let req := in_ ≫= (heap w !!.) in
    let '(res, n) := download c path req r (net w) in
    mkResult (Returned res) (mkWorld (heap w) n) [EvDownload path req r res.1 res.2].

(** [body.Close()]; its result is dropped. *)
Definition body_Close (body : handle) : M Srv unit :=
  fun w =>
    let close s := mkStream (data s) (pos s) true in
    mkResult (Returned tt)
             (mkWorld (heap w) (mkNet (alter close body (streams (net w))) (server (net w))))
             [EvClose body].

(** [json.NewDecoder(body).Decode(&out)].  The decoder reads the body to
    its end; a body that is closed (or a handle that refers to no stream)
    gives a read error, which the decoder returns. *)
Definition json_Decode {T} `{Decodable T} (body : handle) (out : option T)
  : M Srv (option T * option error) :=
  fun w =>
    match streams (net w) !! body with
    | Some s =>
        if closed s then mkResult (Returned (out, Some ErrBodyClosed)) w
                                  [EvDecode body None (Some ErrBodyClosed)]
        else
          let r := decode (unread s) out in
          let s' := mkStream (data s) (String.length (data s)) false in
          mkResult (Returned r)
                   (mkWorld (heap w) (mkNet (<[body := s']> (streams (net w))) (server (net w))))
                   [EvDecode body (Some (unread s)) r.2]
    | None => mkResult (Returned (out, Some ErrBodyClosed)) w
                       [EvDecode body None (Some ErrBodyClosed)]
    end.

(** [defer body.Close()] followed by the rest [m] of the function: the
    method value of a nil interface panics at once; otherwise [Close] runs
    when [m] is over, whether it returned or panicked. *)
Definition defer_Close {A} (body : option handle) (m : handle -> M Srv A) : M Srv A :=
  match body with
  | None => panic
  | Some b =>
      fun w =>
        let r := m b w in
        let r' := body_Close b (world r) in
        mkResult (out r) (world r') (events r ++ events r')
  end.

(** Reading a field through [in]: a nil pointer panics.  (So does, here, a
    pointer to a record of another type, which Go's types exclude.) *)
Definition load_SearchInput (in_ : ptr) : M Srv SearchInput.t :=
  fun w =>
    match in_ ≫= (heap w !!.) with
    | Some (InSearch v) => mkResult (Returned v) w []
    | _ => mkResult Panicked w []
    end.

Definition load_UploadInput (in_ : ptr) : M Srv UploadInput.t :=
  fun w =>
    match in_ ≫= (heap w !!.) with
    | Some (InUpload v) => mkResult (Returned v) w []
    | _ => mkResult Panicked w []
    end.

(** Writing the record [in] points to. *)
Definition store_Input (in_ : ptr) (v : Input) : M Srv unit :=
  fun w =>
    match in_ with
    | Some l => mkResult (Returned tt) (mkWorld (<[l := v]> (heap w)) (net w)) []
    | None => mkResult Panicked w []
    end.

(** GetMetadata returns the metadata for a file or folder. *)
Definition GetMetadata (in_ : ptr) : M Srv (option GetMetadataOutput.t * option error) :=
  '(body, err) ← c_call "/files/get_metadata" in_;
  if err is Some _ then mret (None, err) else
  defer_Close body (fun body =>
  json_Decode body None).

(** CreateFolder creates a folder. *)
Definition CreateFolder (in_ : ptr) : M Srv (option CreateFolderOutput.t * option error) :=
  '(body, err) ← c_call "/files/create_folder" in_;
  if err is Some _ then mret (None, err) else
  defer_Close body (fun body =>
  json_Decode body None).

(** Delete a file or folder and its contents. *)
Definition Delete (in_ : ptr) : M Srv (option DeleteOutput.t * option error) :=
  '(body, err) ← c_call "/files/delete" in_;
  if err is Some _ then mret (None, err) else
  defer_Close body (fun body =>
  json_Decode body None).

(** Copy a file or folder to a different location. *)
Definition Copy (in_ : ptr) : M Srv (option CopyOutput.t * option error) :=
  '(body, err) ← c_call "/files/copy" in_;
  if err is Some _ then mret (None, err) else
  defer_Close body (fun body =>
  json_Decode body None).

(** Move a file or folder to a different location. *)
Definition Move (in_ : ptr) : M Srv (option MoveOutput.t * option error) :=
  '(body, err) ← c_call "/files/move" in_;
  if err is Some _ then mret (None, err) else
  defer_Close body (fun body =>
  json_Decode body None).

(** Restore a file to a specific revision. *)
Definition Restore (in_ : ptr) : M Srv (option RestoreOutput.t * option error) :=
  '(body, err) ← c_call "/files/restore" in_;
  if err is Some _ then mret (None, err) else
  defer_Close body (fun body =>
  json_Decode body None).

(** ListFolder returns the metadata for a file or folder. *)
Definition ListFolder (in_ : ptr) : M Srv (option ListFolderOutput.t * option error) :=
  '(body, err) ← c_call "/files/list_folder" in_;
  if err is Some _ then mret (None, err) else
  defer_Close body (fun body =>
  json_Decode body None).

(** Search for files and folders. *)
Definition Search (in_ : ptr) : M Srv (option SearchOutput.t * option error) :=
  v ← load_SearchInput in_;
  (if bool_decide (SearchInput.Mode v = "")
   then store_Input in_ (InSearch (SearchInput.set_Mode SearchModeFilename v))
   else mret tt);;
  '(body, err) ← c_call "/files/search" in_;
  if err is Some _ then mret (None, err) else
  defer_Close body (fun body =>
  json_Decode body None).

(** Upload a file smaller than 150MB. *)
Definition Upload (in_ : ptr) : M Srv (option UploadOutput.t * option error) :=
  v ← load_UploadInput in_;
  '(body, err) ← c_download "/files/upload" in_ (UploadInput.Reader v);
  if err is Some _ then mret (None, err) else
  defer_Close body (fun body =>
  json_Decode body None).

(** Download a file. *)
Definition Download (in_ : ptr) : M Srv (option DownloadOutput.t * option error) :=
  '(body, err) ← c_download "/files/download" in_ None;
  if err is Some _ then mret (None, err) else
  mret (Some (DownloadOutput.mk body), None).

(** *** The facade as a whole *)

(** The output records, as one type. *)
Inductive Output : Type :=
| OutGetMetadata (v : GetMetadataOutput.t)
| OutCreateFolder (v : CreateFolderOutput.t)
| OutDelete (v : DeleteOutput.t)
| OutCopy (v : CopyOutput.t)
| OutMove (v : MoveOutput.t)
| OutRestore (v : RestoreOutput.t)
| OutListFolder (v : ListFolderOutput.t)
| OutSearch (v : SearchOutput.t)
| OutUpload (v : UploadOutput.t)
| OutDownload (v : DownloadOutput.t).

(** The methods of [Files]. *)
Inductive Op : Type :=
| OpGetMetadata | OpCreateFolder | OpDelete | OpCopy | OpMove
| OpRestore | OpListFolder | OpSearch | OpUpload | OpDownload.

#[global] Instance Op_eq_dec : EqDecision Op.
Proof. solve_decision. Defined.

(** The methods whose response body is decoded as JSON: all but Download. *)
Definition decodes_json (op : Op) : bool :=
  match op with
  | OpDownload => false
  | _ => true
  end.

(** What decoding the bytes of a response body gives each method to
    return, from a nil [out]; Download decodes nothing. *)
Definition decode_Output (op : Op) (bytes : string) : option Output * option error :=
  let as_ {A} (inj : A -> Output) (r : option A * option error) := (inj <$> r.1, r.2) in
  match op with
  | OpGetMetadata => as_ OutGetMetadata (decode bytes None)
  | OpCreateFolder => as_ OutCreateFolder (decode bytes None)
  | OpDelete => as_ OutDelete (decode bytes None)
  | OpCopy => as_ OutCopy (decode bytes None)
  | OpMove => as_ OutMove (decode bytes None)
  | OpRestore => as_ OutRestore (decode bytes None)
  | OpListFolder => as_ OutListFolder (decode bytes None)
  | OpSearch => as_ OutSearch (decode bytes None)
  | OpUpload => as_ OutUpload (decode bytes None)
  | OpDownload => (None, None)
  end.

Definition as_Output {A} (inj : A -> Output) (m : M Srv (option A * option error))
  : M Srv (option Output * option error) :=
  fun w =>
    let r := m w in
    mkResult (match out r with
              | Returned (o, e) => Returned (inj <$> o, e)
              | Panicked => Panicked
              end)
             (world r) (events r).

(** The method [op] of [c], called with the pointer [in_]. *)
Definition run (op : Op) (in_ : ptr) : M Srv (option Output * option error) :=
  match op with
  | OpGetMetadata => as_Output OutGetMetadata (GetMetadata in_)
  | OpCreateFolder => as_Output OutCreateFolder (CreateFolder in_)
  | OpDelete => as_Output OutDelete (Delete in_)
  | OpCopy => as_Output OutCopy (Copy in_)
  | OpMove => as_Output OutMove (Move in_)
  | OpRestore => as_Output OutRestore (Restore in_)
  | OpListFolder => as_Output OutListFolder (ListFolder in_)
  | OpSearch => as_Output OutSearch (Search in_)
  | OpUpload => as_Output OutUpload (Upload in_)
  | OpDownload => as_Output OutDownload (Download in_)
  end.

(** *** Summaries used by the proofs *)

(** What each of the nine decoding methods does once the transport has
    answered: the text of the method from [if err != nil] on. *)
Definition respond {T} `{Decodable T} (r : option handle * option error)
  : M Srv (option T * option error) :=
  let '(body, err) := r in
  if err is Some _ then mret (None, err) else
  defer_Close body (fun body => json_Decode body None).

(** The runs of [respond], by the transport's answer. *)
Inductive responded {T} `{Decodable T} (w : World Srv)
  : option handle * option error -> result Srv (option T * option error) -> Prop :=
| responded_error body e :
    responded w (body, Some e) (mkResult (Returned (None, Some e)) w [])
| responded_nil :
    responded w (None, None) (mkResult Panicked w [])
| responded_read_error b w' :
    heap w' = heap w ->
    (forall s, streams (net w') !! b = Some s -> closed s = true) ->
    responded w (Some b, None)
      (mkResult (Returned (None, Some ErrBodyClosed)) w'
                [EvDecode b None (Some ErrBodyClosed); EvClose b])
| responded_decoded b s w' :
    streams (net w) !! b = Some s ->
    closed s = false ->
    heap w' = heap w ->
    streams (net w')
    = <[b := mkStream (data s) (String.length (data s)) true]> (streams (net w)) ->
    responded w (Some b, None)
      (mkResult (Returned (decode (unread s) None)) w'
                [EvDecode b (Some (unread s)) (decode (unread s) None).2; EvClose b]).

(** The runs of a method, by what can be seen of them. *)
Inductive ran (op : Op) : result Srv (option Output * option error) -> Prop :=
| ran_nil_deref w :
    ran op (mkResult Panicked w [])
| ran_transport_error ev body e w :
    transport_result ev = Some (body, Some e) ->
    ran op (mkResult (Returned (None, Some e)) w [ev])
| ran_nil_body ev w :
    transport_result ev = Some (None, None) ->
    decodes_json op = true ->
    ran op (mkResult Panicked w [ev])
| ran_read_error ev b w :
    transport_result ev = Some (Some b, None) ->
    decodes_json op = true ->
    (forall s, streams (net w) !! b = Some s -> closed s = true) ->
    ran op (mkResult (Returned (None, Some ErrBodyClosed)) w
                     [ev; EvDecode b None (Some ErrBodyClosed); EvClose b])
| ran_decoded ev b bytes w :
    transport_result ev = Some (Some b, None) ->
    decodes_json op = true ->
    (forall s, streams (net w) !! b = Some s -> closed s = true) ->
    ran op (mkResult (Returned (decode_Output op bytes)) w
                     [ev; EvDecode b (Some bytes) (decode_Output op bytes).2; EvClose b])
| ran_handed_over ev body w :
    transport_result ev = Some (body, None) ->
    op = OpDownload ->
    ran op (mkResult (Returned (Some (OutDownload (DownloadOutput.mk body)), None)) w [ev]).

(** An event of the transport records what the primitive of [c] returns
    for the endpoint, record and reader of the event, in the state [n]. *)
Definition transport_sound (n : Net Srv) (ev : event) : Prop :=
  match ev with
  | EvCall path req body err => (call c path req n).1 = (body, err)
  | EvDownload path req r body err => (download c path req r n).1 = (body, err)
  | _ => True
  end.

(** A computation that leaves the local memory as it found it. *)
Definition keeps_heap {A} (m : M Srv A) : Prop :=
  forall w, heap (world (m w)) = heap w.

End Files.

(** ** A client for running the methods

    A stand-in for the HTTP client: the remote end answers every request
    with the same prepared response, and keeps the requests it got: the
    endpoint, the marshalled input record and, for [download], the bytes it
    read from the request body. *)

Module Mock.

Record remote : Type := mkRemote {
  reply_body : option string;
  reply_err : option error;
  requests : list (string * string * option string)
}.

Definition respond (n : Net remote) (rq : string * string * option string)
  : (option handle * option error) * Net remote :=
  let srv := mkRemote (reply_body (server n)) (reply_err (server n))
                      (requests (server n) ++ [rq]) in
  match reply_body (server n) with
  | Some bytes =>
      let h := fresh (dom (streams n)) in
      ((Some h, reply_err (server n)),
       mkNet (<[h := mkStream bytes 0 false]> (streams n)) srv)
  | None => ((None, reply_err (server n)), mkNet (streams n) srv)
  end.

(** Reads the request body to its end. *)
Definition read_all (r : option handle) (n : Net remote) : option string * Net remote :=
  match r ≫= (streams n !!.) with
  | Some s =>
      if closed s then (None, n)
      else (Some (unread s),
            mkNet (alter (fun s => mkStream (data s) (String.length (data s)) (closed s))
                         (default 0 r) (streams n))
                  (server n))
  | None => (None, n)
  end.

Definition client : Client remote := {|
  call path req n := respond n (path, render (Marshal req), None);
  download path req r n :=
    let '(sent, n') := read_all r n in
    respond n' (path, render (Marshal req), sent)
|}.

(** The decoders of encoding/json for the output records. *)
Definition dec_GetMetadata : Decodable GetMetadataOutput.t :=
  Decode GetMetadataOutput.zero "dropbox.GetMetadataOutput" GetMetadataOutput.fields.
Definition dec_CreateFolder : Decodable CreateFolderOutput.t :=
  Decode CreateFolderOutput.zero "dropbox.CreateFolderOutput" CreateFolderOutput.fields.
Definition dec_Delete : Decodable DeleteOutput.t :=
  Decode DeleteOutput.zero "dropbox.DeleteOutput" DeleteOutput.fields.
Definition dec_Copy : Decodable CopyOutput.t :=
  Decode CopyOutput.zero "dropbox.CopyOutput" CopyOutput.fields.
Definition dec_Move : Decodable MoveOutput.t :=
  Decode MoveOutput.zero "dropbox.MoveOutput" MoveOutput.fields.
Definition dec_Restore : Decodable RestoreOutput.t :=
  Decode RestoreOutput.zero "dropbox.RestoreOutput" RestoreOutput.fields.
Definition dec_ListFolder : Decodable ListFolderOutput.t :=
  Decode ListFolderOutput.zero "dropbox.ListFolderOutput" ListFolderOutput.fields.
Definition dec_Search : Decodable SearchOutput.t :=
  Decode SearchOutput.zero "dropbox.SearchOutput" SearchOutput.fields.
Definition dec_Upload : Decodable UploadOutput.t :=
  Decode UploadOutput.zero "dropbox.UploadOutput" UploadOutput.fields.

(** The facade over [client], with these decoders. *)
Definition files (op : Op) (in_ : ptr) : M remote (option Output * option error) :=
  @run remote client dec_GetMetadata dec_CreateFolder dec_Delete dec_Copy dec_Move
       dec_Restore dec_ListFolder dec_Search dec_Upload op in_.

(** A state with the record [v] at address 1, the stream [rd] (if any) at
    handle 7, and a remote end that will answer with [body] and [err]. *)
Definition start (v : Input) (rd : option string) (body : option string) (err : option error)
  : World remote :=
  mkWorld {[ 1 := v ]}
          (mkNet (from_option (fun bytes => {[ 7 := mkStream bytes 0 false ]}) ∅ rd)
                 (mkRemote body err [])).

End Mock.

(** ** Sample calls *)

Module Sample.

Definition metadata_input : Input := InGetMetadata (GetMetadataInput.mk "/a.txt" false).
Definition search_input : SearchInput.t := SearchInput.mk "/docs" "report" 0 0 "".
Definition upload_input : UploadInput.t :=
  UploadInput.mk "/a.txt" WriteModeAdd false false zeroTime (Some 7).
Definition download_input : Input := InDownload (DownloadInput.mk "/a.txt").

(** The transport fails. *)
Definition timeout : World Mock.remote :=
  Mock.start metadata_input None None (Some (Errorf "timeout")).

(** The transport fails and still returns a body. *)
Definition refused : World Mock.remote :=
  Mock.start download_input None (Some "path/not_found") (Some (Errorf "409 Conflict")).

(** The response has a string where the size should be. *)
Definition bad_size_body : string := text "{'name':'a.txt','size':'big','id':'id:1'}".
Definition bad_size : World Mock.remote :=
  Mock.start metadata_input None (Some bad_size_body) None.

(** A search with no Mode. *)
Definition search_body : string := text "{'matches':[],'more':false,'start':0}".
Definition search : World Mock.remote :=
  Mock.start (InSearch search_input) None (Some search_body) None.

(** An upload of the five bytes of "hello", with no ClientModified. *)
Definition upload_body : string := text "{'.tag':'file','name':'a.txt','size':5}".
Definition upload : World Mock.remote :=
  Mock.start (InUpload upload_input) (Some "hello") (Some upload_body) None.

(** A download of the same five bytes. *)
Definition download : World Mock.remote :=
  Mock.start download_input None (Some "hello") None.

(** An upload record at address 1 and a download record at address 2. *)
Definition transfer : World Mock.remote :=
  mkWorld (<[2 := download_input]> (heap upload)) (net upload).

End Sample.

(** ** The keys of the records on the wire *)

(** The keys of the remote API are written in snake case: lower-case
    letters, digits and underscores, after an optional leading dot. *)
Definition is_snake (c : ascii) : bool :=
  let n := nat_of_ascii c in
  ((97 <=? n) && (n <=? 122) || (48 <=? n) && (n <=? 57) || (n =? 95))%nat.

Definition is_wire_key (s : string) : bool :=
  let body := match s with
              | String "." r => r
              | _ => s
              end in
  match body with
  | EmptyString => false
  | _ => forallb is_snake (list_ascii_of_string body)
  end.

(** The keys encoding/json uses for a struct's fields. *)
Definition json_keys {T} (fs : list (field T)) : list string := omap json_name fs.

(** The records that go over the wire as JSON, with their keys. *)
Definition wire_records : list (string * list string) := [
  ("Metadata", json_keys Metadata.fields);
  ("GetMetadataInput", json_keys GetMetadataInput.fields);
  ("GetMetadataOutput", json_keys GetMetadataOutput.fields);
  ("CreateFolderInput", json_keys CreateFolderInput.fields);
  ("CreateFolderOutput", json_keys CreateFolderOutput.fields);
  ("DeleteInput", json_keys DeleteInput.fields);
  ("DeleteOutput", json_keys DeleteOutput.fields);
  ("CopyInput", json_keys CopyInput.fields);
  ("CopyOutput", json_keys CopyOutput.fields);
  ("MoveInput", json_keys MoveInput.fields);
  ("MoveOutput", json_keys MoveOutput.fields);
  ("RestoreInput", json_keys RestoreInput.fields);
  ("RestoreOutput", json_keys RestoreOutput.fields);
  ("ListFolderInput", json_keys ListFolderInput.fields);
  ("ListFolderOutput", json_keys ListFolderOutput.fields);
  ("SearchMatch.MatchType", json_keys SearchMatch.MatchType_fields);
  ("SearchMatch", json_keys SearchMatch.fields);
  ("SearchInput", json_keys SearchInput.fields);
  ("SearchOutput", json_keys SearchOutput.fields);
  ("UploadInput", json_keys UploadInput.fields);
  ("UploadOutput", json_keys UploadOutput.fields);
  ("DownloadInput", json_keys DownloadInput.fields)
].

(** ** The methods, one description for the ten *)

(** The endpoint a method posts to. *)
Definition endpoint (op : Op) : string :=
  match op with
  | OpGetMetadata => "/files/get_metadata"
  | OpCreateFolder => "/files/create_folder"
  | OpDelete => "/files/delete"
  | OpCopy => "/files/copy"
  | OpMove => "/files/move"
  | OpRestore => "/files/restore"
  | OpListFolder => "/files/list_folder"
  | OpSearch => "/files/search"
  | OpUpload => "/files/upload"
  | OpDownload => "/files/download"
  end.

(** The methods that go through [c.download]; the others go through
    [c.call]. *)
Definition uses_download (op : Op) : bool :=
  match op with
  | OpUpload | OpDownload => true
  | _ => false
  end.

(** The methods that read a field through [in] before the request. *)
Definition derefs (op : Op) : bool :=
  match op with
  | OpSearch | OpUpload => true
  | _ => false
  end.

(** Whether the method gets as far as its request, by what its pointer
    shows: Search and Upload need their record. *)
Definition can_start (op : Op) (req : option Input) : bool :=
  match op, req with
  | OpSearch, Some (InSearch _) => true
  | OpSearch, _ => false
  | OpUpload, Some (InUpload _) => true
  | OpUpload, _ => false
  | _, _ => true
  end.

(** The record of the input type of each method. *)
Definition accepts (op : Op) (v : Input) : bool :=
  match op, v with
  | OpGetMetadata, InGetMetadata _ | OpCreateFolder, InCreateFolder _
  | OpDelete, InDelete _ | OpCopy, InCopy _ | OpMove, InMove _
  | OpRestore, InRestore _ | OpListFolder, InListFolder _
  | OpSearch, InSearch _ | OpUpload, InUpload _ | OpDownload, InDownload _ => true
  | _, _ => false
  end.

(** The reader a method passes as request body: the Reader of the record
    for Upload, nil for the others. *)
Definition request_reader (op : Op) (req : option Input) : option handle :=
  match op, req with
  | OpUpload, Some (InUpload u) => UploadInput.Reader u
  | _, _ => None
  end.

(** The local memory when the request is made: as at the call, except
    that Search has filled an empty Mode. *)
Definition heap_after (op : Op) (in_ : ptr) (h : gmap loc Input) : gmap loc Input :=
  match op, in_ with
  | OpSearch, Some l =>
      match h !! l with
      | Some (InSearch v) =>
          if bool_decide (SearchInput.Mode v = "")
          then <[l := InSearch (SearchInput.set_Mode SearchModeFilename v)]> h
          else h
      | _ => h
      end
  | _, _ => h
  end.

Definition same_type (a b : Input) : bool :=
  match a, b with
  | InGetMetadata _, InGetMetadata _ | InCreateFolder _, InCreateFolder _
  | InDelete _, InDelete _ | InCopy _, InCopy _ | InMove _, InMove _
  | InRestore _, InRestore _ | InListFolder _, InListFolder _
  | InSearch _, InSearch _ | InUpload _, InUpload _ | InDownload _, InDownload _ => true
  | _, _ => false
  end.

(** The input records that hold a [time.Time]. *)
Definition carries_Time (v : Input) : bool :=
  match v with
  | InUpload _ => true
  | _ => false
  end.

(** The strings an input record holds. *)
Definition strings_of (v : Input) : list string :=
  match v with
  | InGetMetadata x => [GetMetadataInput.Path x]
  | InCreateFolder x => [CreateFolderInput.Path x]
  | InDelete x => [DeleteInput.Path x]
  | InCopy x => [CopyInput.FromPath x; CopyInput.ToPath x]
  | InMove x => [MoveInput.FromPath x; MoveInput.ToPath x]
  | InRestore x => [RestoreInput.Path x; RestoreInput.Rev x]
  | InListFolder x => [ListFolderInput.Path x]
  | InSearch x => [SearchInput.Path x; SearchInput.Query x; SearchInput.Mode x]
  | InUpload x => [UploadInput.Path x; UploadInput.Mode x]
  | InDownload x => [DownloadInput.Path x]
  end.

(** An input record without its reader. *)
Definition without_Reader (v : Input) : Input :=
  match v with
  | InUpload u =>
      InUpload (UploadInput.mk (UploadInput.Path u) (UploadInput.Mode u)
                               (UploadInput.AutoRename u) (UploadInput.Mute u)
                               (UploadInput.ClientModified u) None)
  | _ => v
  end.

Section Shape.
Context {Srv : Type} (c : Client Srv).
Context {dec_GetMetadata : Decodable GetMetadataOutput.t}
        {dec_CreateFolder : Decodable CreateFolderOutput.t}
        {dec_Delete : Decodable DeleteOutput.t}
        {dec_Copy : Decodable CopyOutput.t}
        {dec_Move : Decodable MoveOutput.t}
        {dec_Restore : Decodable RestoreOutput.t}
        {dec_ListFolder : Decodable ListFolderOutput.t}
        {dec_Search : Decodable SearchOutput.t}
        {dec_Upload : Decodable UploadOutput.t}.

(** The answer of the primitive a method uses, and the state it leaves. *)
Definition request (op : Op) (req : option Input) (n : Net Srv)
  : (option handle * option error) * Net Srv :=
  if uses_download op
  then download c (endpoint op) req (request_reader op req) n
  else call c (endpoint op) req n.

(** The event of that request. *)
Definition request_event (op : Op) (req : option Input)
    (res : option handle * option error) : event :=
  if uses_download op
  then EvDownload (endpoint op) req (request_reader op req) res.1 res.2
  else EvCall (endpoint op) req res.1 res.2.

(** What a method does once the primitive has answered [res]. *)
Definition finish (op : Op) (res : option handle * option error)
  : M Srv (option Output * option error) :=
  match op with
  | OpGetMetadata => as_Output OutGetMetadata (respond res)
  | OpCreateFolder => as_Output OutCreateFolder (respond res)
  | OpDelete => as_Output OutDelete (respond res)
  | OpCopy => as_Output OutCopy (respond res)
  | OpMove => as_Output OutMove (respond res)
  | OpRestore => as_Output OutRestore (respond res)
  | OpListFolder => as_Output OutListFolder (respond res)
  | OpSearch => as_Output OutSearch (respond res)
  | OpUpload => as_Output OutUpload (respond res)
  | OpDownload =>
      fun w => mkResult (Returned (if res.2 is Some _ then (None, res.2)
                                   else (Some (OutDownload (DownloadOutput.mk res.1)), None)))
                        w []
  end.

End Shape.

(** Case analysis on the membership of an event in a list of events
    that is written out. *)
Ltac event_cases H :=
  repeat (apply elem_of_cons in H as [H|H]; [try subst; try discriminate|]);
  try (by apply elem_of_nil in H).

(** * Properties *)

(** ** The models of the standard library on sample inputs *)

Example parse_object :
  parse (text "{'name':'a.txt','size':5} ")
  = Some (JObject [("name", JString "a.txt"); ("size", JNumber "5")], " ").
Proof. reflexivity. Qed.

Example parse_truncated : parse (text "{'name':'a.txt'") = None.
Proof. reflexivity. Qed.

Example render_parse :
  render (JObject [("a", JArray [JNumber "1"; JBool true; JNull])])
  = text "{'a':[1,true,null]}".
Proof. reflexivity. Qed.

Example omitempty_uint64 :
  render (Marshal (Some (InSearch (SearchInput.mk "/" "q" 0 7 ""))))
  = text "{'path':'/','query':'q','max_results':7,'mode':''}".
Proof. reflexivity. Qed.

Example decode_Metadata :
  Mock.dec_GetMetadata
    (text "{'.tag':'file','name':'a.txt','size':5,'server_modified':'2015-05-12T15:50:38Z'}")
    None
  = (Some (GetMetadataOutput.mk
             (Metadata.mk "file" "a.txt" "" zeroTime (mkTime "2015-05-12T15:50:38Z")
                          "" 5 "")),
     None).
Proof. reflexivity. Qed.

Example decode_syntax_error :
  Mock.dec_GetMetadata (text "{'name':'a.txt'") None = (None, Some SyntaxError).
Proof. reflexivity. Qed.

(** ** The facade, for any client and any decoders *)

Section Facade.
Context {Srv : Type} (c : Client Srv).
Context {dec_GetMetadata : Decodable GetMetadataOutput.t}
        {dec_CreateFolder : Decodable CreateFolderOutput.t}
        {dec_Delete : Decodable DeleteOutput.t}
        {dec_Copy : Decodable CopyOutput.t}
        {dec_Move : Decodable MoveOutput.t}
        {dec_Restore : Decodable RestoreOutput.t}
        {dec_ListFolder : Decodable ListFolderOutput.t}
        {dec_Search : Decodable SearchOutput.t}
        {dec_Upload : Decodable UploadOutput.t}.

(** *** The common part of the decoding methods *)

Lemma respond_spec {T} `{Decodable T} r (w : World Srv) : responded w r (respond r w).
Proof.
  destruct r as [body [e|]]; [constructor|].
  destruct body as [b|]; [|constructor].
  unfold respond, defer_Close, json_Decode, body_Close.
  destruct (streams (net w) !! b) as [s|] eqn:Hs; [destruct (closed s) eqn:Hc|]; simpl.
  - apply responded_read_error; simpl; auto.
    intros s'. rewrite lookup_alter_eq, Hs. simpl. by intros [= <-].
  - eapply responded_decoded; eauto; simpl.
    apply map_eq. intros i. rewrite lookup_alter. case_decide; subst.
    + by rewrite !lookup_insert_eq.
    + by rewrite !lookup_insert_ne.
  - apply responded_read_error; simpl; auto.
    intros s'. by rewrite lookup_alter_eq, Hs.
Qed.

Lemma c_call_request path in_ w :
  exists ev r w1, c_call c path in_ w = mkResult (Returned r) w1 [ev]
                  /\ transport_result ev = Some r.
Proof.
  unfold c_call. destruct (call c path _ (net w)) as [[body err] n]. eauto.
Qed.

Lemma c_download_request path in_ rd w :
  exists ev r w1, c_download c path in_ rd w = mkResult (Returned r) w1 [ev]
                  /\ transport_result ev = Some r.
Proof.
  unfold c_download. destruct (download c path _ rd (net w)) as [[body err] n]. eauto.
Qed.

Lemma load_SearchInput_quiet in_ w : events (load_SearchInput (Srv:=Srv) in_ w) = [].
Proof. unfold load_SearchInput. by repeat case_match. Qed.

Lemma load_UploadInput_quiet in_ w : events (load_UploadInput (Srv:=Srv) in_ w) = [].
Proof. unfold load_UploadInput. by repeat case_match. Qed.

Lemma store_Input_quiet in_ v w : events (store_Input (Srv:=Srv) in_ v w) = [].
Proof. unfold store_Input. by case_match. Qed.

(** *** Every run is one of the runs of [ran] *)

Lemma ran_respond {T} `{Decodable T} op (inj : T -> Output) (m : M Srv _) w :
  decodes_json op = true ->
  (forall bytes, decode_Output op bytes
                 = (inj <$> (decode bytes None).1, (decode bytes None).2)) ->
  (exists ev r w1, m w = mkResult (Returned r) w1 [ev] /\ transport_result ev = Some r) ->
  ran op (as_Output inj (m ≫= respond) w).
Proof.
  intros Hj Hd (ev & r & w1 & Hm & Hev). unfold as_Output, mbind, M_bind.
  rewrite Hm. simpl.
  destruct (respond_spec (T:=T) r w1) as [body e| |b w' Hh Hc|b s w' Hs Hc Hh Hst]; simpl.
  - by eapply ran_transport_error.
  - by apply ran_nil_body.
  - by apply ran_read_error.
  - destruct (decode (unread s) None) as [o e] eqn:Hdec. simpl.
    pose proof (Hd (unread s)) as Hd'. rewrite Hdec in Hd'. simpl in Hd'.
    pose proof (ran_decoded op ev b (unread s) w' Hev Hj) as Hr.
    rewrite Hd' in Hr. apply Hr.
    intros s'. rewrite Hst, lookup_insert_eq. by intros [= <-].
Qed.

Lemma ran_quiet_prefix {A T} op (inj : T -> Output) (pre : M Srv A)
    (k : A -> M Srv (option T * option error)) w :
  events (pre w) = [] ->
  (forall a, out (pre w) = Returned a -> ran op (as_Output inj (k a) (world (pre w)))) ->
  ran op (as_Output inj (pre ≫= k) w).
Proof.
  unfold as_Output, mbind, M_bind.
  destruct (pre w) as [[a|] w' evs]; simpl; intros -> Hk.
  - exact (Hk a eq_refl).
  - apply ran_nil_deref.
Qed.

Lemma run_ran op in_ w : ran op (run c op in_ w).
Proof.
  destruct op; simpl.
  - apply (ran_respond OpGetMetadata); [done..|apply c_call_request].
  - apply (ran_respond OpCreateFolder); [done..|apply c_call_request].
  - apply (ran_respond OpDelete); [done..|apply c_call_request].
  - apply (ran_respond OpCopy); [done..|apply c_call_request].
  - apply (ran_respond OpMove); [done..|apply c_call_request].
  - apply (ran_respond OpRestore); [done..|apply c_call_request].
  - apply (ran_respond OpListFolder); [done..|apply c_call_request].
  - apply ran_quiet_prefix; [apply load_SearchInput_quiet|]. intros v _.
    apply ran_quiet_prefix; [case_bool_decide; [apply store_Input_quiet|done]|].
    intros _ _.
    apply (ran_respond OpSearch); [done..|apply c_call_request].
  - apply ran_quiet_prefix; [apply load_UploadInput_quiet|]. intros v _.
    apply (ran_respond OpUpload); [done..|apply c_download_request].
  - destruct (c_download_request "/files/download" in_ None w)
      as (ev & [body err] & w1 & Hm & Hev).
    unfold as_Output, Download, mbind, M_bind. rewrite Hm. simpl.
    destruct err as [e|]; simpl.
    + by eapply ran_transport_error.
    + by eapply ran_handed_over.
Qed.

(** *** The local memory *)

Lemma respond_keeps_heap {T} `{Decodable T} r : keeps_heap (respond (Srv:=Srv) (T:=T) r).
Proof. intros w. by destruct (respond_spec r w). Qed.

Lemma c_call_keeps_heap path in_ : keeps_heap (c_call c path in_).
Proof. intros w. unfold c_call. by destruct (call c path _ (net w)). Qed.

Lemma c_download_keeps_heap path in_ rd : keeps_heap (c_download c path in_ rd).
Proof. intros w. unfold c_download. by destruct (download c path _ rd (net w)). Qed.

Lemma bind_keeps_heap {A B} (m : M Srv A) (k : A -> M Srv B) :
  keeps_heap m -> (forall a, keeps_heap (k a)) -> keeps_heap (m ≫= k).
Proof.
  intros Hm Hk w. unfold mbind, M_bind. specialize (Hm w).
  destruct (m w) as [[a|] w' evs]; simpl in *; [|done].
  by rewrite Hk.
Qed.

Lemma as_Output_keeps_heap {A} (inj : A -> Output) (m : M Srv _) :
  keeps_heap m -> keeps_heap (as_Output inj m).
Proof. intros Hm w. apply Hm. Qed.

Lemma request_respond_keeps_heap {T} `{Decodable T} (m : M Srv _) :
  keeps_heap m -> keeps_heap (m ≫= respond (T:=T)).
Proof. intros Hm. apply bind_keeps_heap; [done|]. apply respond_keeps_heap. Qed.

(** Every method but Search leaves the local memory as it was. *)
Lemma run_keeps_heap op in_ : op <> OpSearch -> keeps_heap (run c op in_).
Proof.
  intros Hop. destruct op; try done; simpl; apply as_Output_keeps_heap.
  1-7: apply request_respond_keeps_heap, c_call_keeps_heap.
  - apply bind_keeps_heap.
    + intros w. unfold load_UploadInput. by repeat case_match.
    + intros v. apply request_respond_keeps_heap, c_download_keeps_heap.
  - apply bind_keeps_heap; [apply c_download_keeps_heap|].
    intros [body [e|]] w; done.
Qed.

(** Search, on a record at [l]: the local memory afterwards. *)
Lemma Search_heap l v w :
  heap w !! l = Some (InSearch v) ->
  heap (world (Search c (Some l) w))
  = if bool_decide (SearchInput.Mode v = "")
    then <[l := InSearch (SearchInput.set_Mode SearchModeFilename v)]> (heap w)
    else heap w.
Proof.
  intros Hl. unfold Search, load_SearchInput, store_Input.
  unfold mbind at 1 2, M_bind at 1 2. simpl. rewrite Hl. simpl.
  case_bool_decide; simpl.
  - exact (request_respond_keeps_heap (T:=SearchOutput.t) _ (c_call_keeps_heap _ _)
             (mkWorld _ (net w))).
  - exact (request_respond_keeps_heap (T:=SearchOutput.t) _ (c_call_keeps_heap _ _) w).
Qed.

(** Download, in one step. *)
Lemma Download_run in_ w :
  Download c in_ w
  = let '(res, n) := download c "/files/download" (in_ ≫= (heap w !!.)) None (net w) in
    mkResult (Returned (if res.2 is Some _ then (None, res.2)
                        else (Some (DownloadOutput.mk res.1), None)))
             (mkWorld (heap w) n)
             [EvDownload "/files/download" (in_ ≫= (heap w !!.)) None res.1 res.2].
Proof.
  unfold Download, c_download, mbind, M_bind.
  by destruct (download c _ _ _ _) as [[body [e|]] n].
Qed.

(** Upload on a record, up to the transport's answer. *)
Lemma Upload_run l u w :
  heap w !! l = Some (InUpload u) ->
  Upload c (Some l) w
  = let '(res, n) := download c "/files/upload" (Some (InUpload u))
                              (UploadInput.Reader u) (net w) in
    let r := respond res (mkWorld (heap w) n) in
    mkResult (out r) (world r)
             (EvDownload "/files/upload" (Some (InUpload u)) (UploadInput.Reader u)
                         res.1 res.2 :: events r).
Proof.
  intros Hl. unfold Upload, load_UploadInput, c_download.
  unfold mbind at 1 2, M_bind at 1 2. simpl. rewrite Hl. simpl. rewrite Hl.
  by destruct (download c _ _ _ _) as [[body err] n].
Qed.

(** *** The events of the transport are the primitives' answers *)

Lemma respond_events {T} `{Decodable T} r (w : World Srv) :
  Forall (fun e => transport_result e = None) (events (respond (T:=T) r w)).
Proof. destruct (respond_spec r w); simpl; repeat constructor. Qed.

Lemma sound_respond {T} `{Decodable T} (inj : T -> Output) (m : M Srv _) n w :
  (exists ev r w1, m w = mkResult (Returned r) w1 [ev] /\ transport_sound c n ev) ->
  Forall (transport_sound c n) (events (as_Output inj (m ≫= respond (T:=T)) w)).
Proof.
  intros (ev & r & w1 & Hm & Hev). unfold as_Output, mbind, M_bind.
  rewrite Hm. simpl. constructor; [done|].
  eapply Forall_impl; [apply respond_events|]. by intros [] ?.
Qed.

Lemma c_call_sound path in_ w :
  exists ev r w1, c_call c path in_ w = mkResult (Returned r) w1 [ev]
                  /\ transport_sound c (net w) ev.
Proof.
  unfold c_call. destruct (call c path _ (net w)) as [[body err] n] eqn:Hc.
  do 3 eexists. split; [done|]. simpl. by rewrite Hc.
Qed.

Lemma c_download_sound path in_ rd w :
  exists ev r w1, c_download c path in_ rd w = mkResult (Returned r) w1 [ev]
                  /\ transport_sound c (net w) ev.
Proof.
  unfold c_download. destruct (download c path _ rd (net w)) as [[body err] n] eqn:Hc.
  do 3 eexists. split; [done|]. simpl. by rewrite Hc.
Qed.

(** Every event of the transport in a run of a method records the answer
    of the primitive of [c] in the state the method was called in: the
    method calls the primitive before anything else touches that state. *)
Lemma run_events_sound op in_ w :
  Forall (transport_sound c (net w)) (events (run c op in_ w)).
Proof.
  destruct op; simpl.
  - apply (sound_respond OutGetMetadata), c_call_sound.
  - apply (sound_respond OutCreateFolder), c_call_sound.
  - apply (sound_respond OutDelete), c_call_sound.
  - apply (sound_respond OutCopy), c_call_sound.
  - apply (sound_respond OutMove), c_call_sound.
  - apply (sound_respond OutRestore), c_call_sound.
  - apply (sound_respond OutListFolder), c_call_sound.
  - unfold Search, load_SearchInput, store_Input, as_Output.
    unfold mbind at 1 2, M_bind at 1 2.
    destruct (in_ ≫= (heap w !!.)) as [[]|]; simpl; try constructor.
    case_bool_decide; [destruct in_ as [l|]|]; simpl; try constructor.
    + exact (sound_respond OutSearch (c_call c "/files/search" (Some l)) (net w)
               (mkWorld _ (net w)) (c_call_sound _ _ (mkWorld _ (net w)))).
    + exact (sound_respond OutSearch (c_call c "/files/search" in_) (net w) w
               (c_call_sound _ _ w)).
  - unfold Upload, load_UploadInput, as_Output.
    unfold mbind at 1, M_bind at 1.
    destruct (in_ ≫= (heap w !!.)) as [[]|]; simpl; try constructor.
    exact (sound_respond OutUpload (c_download c "/files/upload" in_ _) (net w) w
             (c_download_sound _ _ _ w)).
  - rewrite Download_run.
    destruct (download c _ _ _ _) as [[body err] n] eqn:Hd. simpl.
    constructor; [|constructor]. simpl. by rewrite Hd.
Qed.

(** *** Errors of the transport *)

(** The run of a method in which the transport returned an error. *)
Lemma run_transport_error op in_ w ev body e :
  ev ∈ events (run c op in_ w) ->
  transport_result ev = Some (body, Some e) ->
  run c op in_ w = mkResult (Returned (None, Some e)) (world (run c op in_ w)) [ev].
Proof.
  intros Hin Hev.
  destruct (run_ran op in_ w) as [w'|ev' body' e' w' Hev'|ev' w' Hev' Hj
    |ev' b w' Hev' Hj Hc|ev' b bytes w' Hev' Hj Hc|ev' body' w' Hev' Hop];
    simpl in *; event_cases Hin; congruence.
Qed.

(** C3. Whatever the method, if the transport primitive it calls returns an
    error, the method returns that very error, and the call of the
    primitive is all it did: the primitive is not called again, no body is
    decoded and none is closed.  (The event [ev] is the call: it records
    what the primitive of [c] returned in the state the method started
    in.) *)
Theorem transport_error_returned op in_ w ev body e :
  ev ∈ events (run c op in_ w) ->
  transport_result ev = Some (body, Some e) ->
  transport_sound c (net w) ev
  /\ (exists o, out (run c op in_ w) = Returned (o, Some e))
  /\ events (run c op in_ w) = [ev].
Proof.
  intros Hin Hev. split.
  - pose proof (run_events_sound op in_ w) as Hs.
    rewrite Forall_forall in Hs. by apply Hs.
  - rewrite (run_transport_error op in_ w ev body e Hin Hev). simpl. eauto.
Qed.

(** C9. Whatever the method, if the transport primitive returns an error,
    the output pointer the method returns is nil, also when the primitive
    returned a body next to the error; so Download returns no stream with
    an error of the transport. *)
Theorem transport_error_nil_output op in_ w ev body e :
  ev ∈ events (run c op in_ w) ->
  transport_result ev = Some (body, Some e) ->
  forall o err, out (run c op in_ w) = Returned (o, err) -> o = None.
Proof.
  intros Hin Hev o err. rewrite (run_transport_error op in_ w ev body e Hin Hev).
  simpl. congruence.
Qed.

(** *** Decoding and closing the response body *)

(** C5. For each of the nine methods that decode JSON, once the transport
    has returned a body [b] and no error, the method returns, and what it
    did after the transport's answer is to decode [b] and then to close
    it, whether the decoding failed or not; when it returns, [b] is
    closed. *)
Theorem body_closed_before_return op in_ w ev b :
  decodes_json op = true ->
  ev ∈ events (run c op in_ w) ->
  transport_result ev = Some (Some b, None) ->
  exists o rd err,
    out (run c op in_ w) = Returned (o, err)
    /\ events (run c op in_ w) = [ev; EvDecode b rd err; EvClose b]
    /\ forall s, streams (net (world (run c op in_ w))) !! b = Some s -> closed s = true.
Proof.
  intros Hj Hin Hev.
  destruct (run_ran op in_ w) as [w'|ev' body' e' w' Hev'|ev' w' Hev' Hj'
    |ev' b' w' Hev' Hj' Hc|ev' b' bytes w' Hev' Hj' Hc|ev' body' w' Hev' Hop];
    simpl in *; event_cases Hin; try congruence.
  - assert (b' = b) as -> by congruence. eauto 10.
  - assert (b' = b) as -> by congruence.
    destruct (decode_Output op bytes) as [o err]. simpl. eauto 10.
Qed.


(** *** The input record *)

(** C2, as amended. After a call of a method with a pointer to a record,
    the record is as it was before the call, except after Search on a
    record whose Mode is empty: then its Mode is "filename" and its other
    fields are as before.  The other records of the local memory are as
    they were. *)
Theorem input_record_after_call op l v w :
  heap w !! l = Some v ->
  heap (world (run c op (Some l) w)) !! l
  = Some (match op, v with
          | OpSearch, InSearch s =>
              if bool_decide (SearchInput.Mode s = "")
              then InSearch (SearchInput.set_Mode SearchModeFilename s)
              else v
          | _, _ => v
          end)
  /\ forall l', l' <> l -> heap (world (run c op (Some l) w)) !! l' = heap w !! l'.
Proof.
  intros Hl. destruct (decide (op = OpSearch)) as [->|Hop].
  - destruct v as [| | | | | | |s| |];
      try (assert (heap (world (run c OpSearch (Some l) w)) = heap w) as ->;
           [|by rewrite Hl];
           simpl; unfold Search, load_SearchInput, mbind at 1, M_bind at 1;
           simpl; by rewrite Hl).
    change (heap (world (run c OpSearch (Some l) w)))
      with (heap (world (Search c (Some l) w))).
    rewrite (Search_heap l s w Hl). case_bool_decide.
    + rewrite lookup_insert_eq. split; [done|].
      intros l' Hne. by rewrite lookup_insert_ne.
    + by rewrite Hl.
  - rewrite (run_keeps_heap op (Some l) Hop w), Hl.
    split; [|done]. by destruct op, v.
Qed.

(** *** Search *)

Lemma result_eta {A} (r : result Srv A) : mkResult (out r) (world r) (events r) = r.
Proof. by destruct r. Qed.

(** C1. Search on a record whose Mode is empty runs as Search on the same
    record with Mode "filename": the two runs are equal, in what they
    return (output and error), in what they do (so in the request the
    transport gets) and in the state they end in.  The request is made to
    /files/search with the record that has Mode "filename". *)
Theorem Search_empty_Mode_as_filename l v w :
  heap w !! l = Some (InSearch v) ->
  SearchInput.Mode v = "" ->
  let v' := SearchInput.set_Mode SearchModeFilename v in
  let w' := mkWorld (<[l := InSearch v']> (heap w)) (net w) in
  Search c (Some l) w = Search c (Some l) w'
  /\ exists rest,
      events (Search c (Some l) w)
      = EvCall "/files/search" (Some (InSearch v'))
               (call c "/files/search" (Some (InSearch v')) (net w)).1.1
               (call c "/files/search" (Some (InSearch v')) (net w)).1.2 :: rest.
Proof.
  intros Hl Hmode v' w'.
  assert (Search c (Some l) w
          = (c_call c "/files/search" (Some l) ≫= respond) w') as Hw.
  { unfold Search, load_SearchInput, store_Input.
    unfold mbind at 1 2, M_bind at 1 2. simpl. rewrite Hl. simpl.
    rewrite bool_decide_true by done. simpl.
    exact (result_eta ((c_call c "/files/search" (Some l) ≫= respond) w')). }
  assert (Search c (Some l) w'
          = (c_call c "/files/search" (Some l) ≫= respond) w') as Hw'.
  { unfold Search, load_SearchInput, store_Input.
    unfold mbind at 1 2, M_bind at 1 2. simpl. rewrite lookup_insert_eq. simpl.
    exact (result_eta ((c_call c "/files/search" (Some l) ≫= respond) w')). }
  split; [by rewrite Hw, Hw'|].
  rewrite Hw. unfold mbind, M_bind, c_call. simpl. rewrite lookup_insert_eq.
  destruct (call c "/files/search" (Some (InSearch v')) (net w)) as [[body err] n].
  simpl. eauto.
Qed.

(** *** Upload and Download *)

(** C6. When the transport's download primitive returns a stream [b] and
    no error, Download returns an output whose Body is [b], and the stream
    is in the state the transport left it in: Download has neither read
    from it nor closed it, so a stream that the transport returns open and
    unread reaches the caller open and unread. *)
Theorem Download_hands_over_body in_ w b n s :
  download c "/files/download" (in_ ≫= (heap w !!.)) None (net w) = ((Some b, None), n) ->
  streams n !! b = Some s ->
  out (Download c in_ w) = Returned (Some (DownloadOutput.mk (Some b)), None)
  /\ streams (net (world (Download c in_ w))) !! b = Some s
  /\ events (Download c in_ w)
     = [EvDownload "/files/download" (in_ ≫= (heap w !!.)) None (Some b) None].
Proof.
  intros Hd Hs. rewrite Download_run, Hd. simpl. auto.
Qed.

(** C7. Upload makes its request with the [download] primitive, to
    /files/upload, with the input record as metadata and the record's
    Reader as request body; Download makes its request with the same
    primitive, to /files/download, with the input record as metadata and
    no request body, and when the primitive returns no error, the Body of
    its output is the response body the primitive returned.  Neither calls
    a primitive a second time. *)
Theorem Upload_Download_requests lu u ld d w :
  heap w !! lu = Some (InUpload u) ->
  heap w !! ld = Some (InDownload d) ->
  (let res := (download c "/files/upload" (Some (InUpload u))
                        (UploadInput.Reader u) (net w)).1 in
   exists rest,
     events (Upload c (Some lu) w)
     = EvDownload "/files/upload" (Some (InUpload u)) (UploadInput.Reader u)
                  res.1 res.2 :: rest
     /\ Forall (fun e => transport_result e = None) rest)
  /\ (let res := (download c "/files/download" (Some (InDownload d)) None (net w)).1 in
      events (Download c (Some ld) w)
      = [EvDownload "/files/download" (Some (InDownload d)) None res.1 res.2]
      /\ (res.2 = None ->
          out (Download c (Some ld) w)
          = Returned (Some (DownloadOutput.mk res.1), None))).
Proof.
  intros Hu Hd. split.
  - rewrite (Upload_run lu u w Hu).
    destruct (download c _ _ _ _) as [[body err] n]. simpl.
    exists (events (respond (T:=UploadOutput.t) (body, err) (mkWorld (heap w) n))).
    split; [done|].
    destruct (respond_spec (T:=UploadOutput.t) (body, err) (mkWorld (heap w) n));
      simpl; repeat constructor.
  - simpl. rewrite Download_run. simpl. rewrite Hd.
    destruct (download c _ _ _ _) as [[body [e|]] n]; simpl; done.
Qed.

End Facade.

(** ** The facade over the sample client *)

(** C3 on a call of GetMetadata whose transport times out. *)
Lemma transport_error_returned_witness :
  let r := Mock.files OpGetMetadata (Some 1) Sample.timeout in
  let ev := EvCall "/files/get_metadata" (Some Sample.metadata_input)
                   None (Some (Errorf "timeout")) in
  ev ∈ events r
  /\ transport_result ev = Some (None, Some (Errorf "timeout"))
  /\ transport_sound Mock.client (net Sample.timeout) ev
  /\ (exists o, out r = Returned (o, Some (Errorf "timeout")))
  /\ events r = [ev].
Proof.
  intros r ev.
  assert (ev ∈ events r) as Hin by (vm_compute; left).
  split; [exact Hin|]. split; [reflexivity|].
  exact (transport_error_returned Mock.client OpGetMetadata (Some 1) Sample.timeout
           ev None (Errorf "timeout") Hin eq_refl).
Defined.

(** C9 on a call of Download whose transport returns an error and a body. *)
Lemma transport_error_nil_output_witness :
  let r := Mock.files OpDownload (Some 1) Sample.refused in
  let ev := EvDownload "/files/download" (Some Sample.download_input) None
                       (Some 0) (Some (Errorf "409 Conflict")) in
  ev ∈ events r
  /\ transport_result ev = Some (Some 0, Some (Errorf "409 Conflict"))
  /\ forall o err, out r = Returned (o, err) -> o = None.
Proof.
  intros r ev.
  assert (ev ∈ events r) as Hin by (vm_compute; left).
  split; [exact Hin|]. split; [reflexivity|].
  exact (transport_error_nil_output Mock.client OpDownload (Some 1) Sample.refused
           ev (Some 0) (Errorf "409 Conflict") Hin eq_refl).
Defined.

(** C5 on a call of GetMetadata whose response does not decode. *)
Lemma body_closed_before_return_witness :
  let r := Mock.files OpGetMetadata (Some 1) Sample.bad_size in
  let ev := EvCall "/files/get_metadata" (Some Sample.metadata_input) (Some 0) None in
  decodes_json OpGetMetadata = true
  /\ ev ∈ events r
  /\ transport_result ev = Some (Some 0, None)
  /\ exists o rd err,
      out r = Returned (o, err)
      /\ events r = [ev; EvDecode 0 rd err; EvClose 0]
      /\ forall s, streams (net (world r)) !! 0 = Some s -> closed s = true.
Proof.
  intros r ev.
  assert (ev ∈ events r) as Hin by (vm_compute; left).
  split; [reflexivity|]. split; [exact Hin|]. split; [reflexivity|].
  exact (body_closed_before_return Mock.client OpGetMetadata (Some 1) Sample.bad_size
           ev 0 eq_refl Hin eq_refl).
Defined.



(** C2, counterexample. Search called with a record whose Mode is empty
    returns, and the caller's record then has Mode "filename". *)
Lemma Search_changes_input_record :
  let r := Mock.files OpSearch (Some 1) Sample.search in
  out r = Returned (Some (OutSearch (SearchOutput.mk [] false 0)), None)
  /\ heap Sample.search !! 1 = Some (InSearch (SearchInput.mk "/docs" "report" 0 0 ""))
  /\ heap (world r) !! 1 = Some (InSearch (SearchInput.mk "/docs" "report" 0 0 "filename"))
  /\ heap (world r) !! 1 <> heap Sample.search !! 1.
Proof.
  vm_compute. split_and!; try reflexivity. discriminate.
Qed.

(** C2, as amended, on the same call of Search. *)
Lemma input_record_after_call_witness :
  let r := Mock.files OpSearch (Some 1) Sample.search in
  heap Sample.search !! 1 = Some (InSearch Sample.search_input)
  /\ heap (world r) !! 1
     = Some (InSearch (SearchInput.set_Mode SearchModeFilename Sample.search_input))
  /\ forall l', l' <> 1 -> heap (world r) !! l' = heap Sample.search !! l'.
Proof.
  split; [reflexivity|].
  exact (input_record_after_call Mock.client OpSearch 1 (InSearch Sample.search_input)
           Sample.search eq_refl).
Defined.

(** C1 on a call of Search with a record that has no Mode. *)
Lemma Search_empty_Mode_as_filename_witness :
  let v' := SearchInput.set_Mode SearchModeFilename Sample.search_input in
  let w' := mkWorld (<[1 := InSearch v']> (heap Sample.search)) (net Sample.search) in
  heap Sample.search !! 1 = Some (InSearch Sample.search_input)
  /\ SearchInput.Mode Sample.search_input = ""
  /\ Search Mock.client (dec_Search := Mock.dec_Search) (Some 1) Sample.search
     = Search Mock.client (dec_Search := Mock.dec_Search) (Some 1) w'
  /\ exists rest,
      events (Search Mock.client (dec_Search := Mock.dec_Search) (Some 1) Sample.search)
      = EvCall "/files/search" (Some (InSearch v'))
               (call Mock.client "/files/search" (Some (InSearch v'))
                     (net Sample.search)).1.1
               (call Mock.client "/files/search" (Some (InSearch v'))
                     (net Sample.search)).1.2 :: rest.
Proof.
  intros v' w'. split; [reflexivity|]. split; [reflexivity|].
  exact (Search_empty_Mode_as_filename Mock.client (dec_Search := Mock.dec_Search)
           1 Sample.search_input Sample.search eq_refl eq_refl).
Defined.

(** C6 on a download of five bytes. *)
Lemma Download_hands_over_body_witness :
  let r := Download Mock.client (Some 1) Sample.download in
  let n := (download Mock.client "/files/download" (Some Sample.download_input) None
                     (net Sample.download)).2 in
  download Mock.client "/files/download" (Some 1 ≫= (heap Sample.download !!.)) None
           (net Sample.download) = ((Some 0, None), n)
  /\ streams n !! 0 = Some (mkStream "hello" 0 false)
  /\ out r = Returned (Some (DownloadOutput.mk (Some 0)), None)
  /\ streams (net (world r)) !! 0 = Some (mkStream "hello" 0 false)
  /\ events r = [EvDownload "/files/download" (Some 1 ≫= (heap Sample.download !!.))
                            None (Some 0) None].
Proof.
  intros r n.
  assert (download Mock.client "/files/download" (Some 1 ≫= (heap Sample.download !!.))
                   None (net Sample.download) = ((Some 0, None), n)) as Hd
    by (vm_compute; reflexivity).
  assert (streams n !! 0 = Some (mkStream "hello" 0 false)) as Hs
    by (vm_compute; reflexivity).
  split; [exact Hd|]. split; [exact Hs|].
  exact (Download_hands_over_body Mock.client (Some 1) Sample.download 0 n
           (mkStream "hello" 0 false) Hd Hs).
Defined.

(** C7 on an upload and a download of the same path. *)
Lemma Upload_Download_requests_witness :
  let w := Sample.transfer in
  let up := (download Mock.client "/files/upload" (Some (InUpload Sample.upload_input))
                      (Some 7) (net w)).1 in
  let down := (download Mock.client "/files/download" (Some Sample.download_input)
                        None (net w)).1 in
  heap w !! 1 = Some (InUpload Sample.upload_input)
  /\ heap w !! 2 = Some Sample.download_input
  /\ (exists rest,
        events (Upload Mock.client (dec_Upload := Mock.dec_Upload) (Some 1) w)
        = EvDownload "/files/upload" (Some (InUpload Sample.upload_input)) (Some 7)
                     up.1 up.2 :: rest
        /\ Forall (fun e => transport_result e = None) rest)
  /\ events (Download Mock.client (Some 2) w)
     = [EvDownload "/files/download" (Some Sample.download_input) None down.1 down.2]
  /\ (down.2 = None ->
      out (Download Mock.client (Some 2) w)
      = Returned (Some (DownloadOutput.mk down.1), None)).
Proof.
  intros w up down. split; [reflexivity|]. split; [reflexivity|].
  exact (Upload_Download_requests Mock.client (dec_Upload := Mock.dec_Upload)
           1 Sample.upload_input 2 (DownloadInput.mk "/a.txt") w eq_refl eq_refl).
Defined.

(** The scenario of an upload followed by a download of the same path, as
    the sample client answers it. *)
Example Upload_scenario :
  let r := Mock.files OpUpload (Some 1) Sample.upload in
  out r = Returned
            (Some (OutUpload (UploadOutput.mk
                                (Metadata.mk "file" "a.txt" "" zeroTime zeroTime "" 5 ""))),
             None)
  /\ Mock.requests (server (net (world r)))
     = [("/files/upload",
         text "{'path':'/a.txt','mode':'add','autorename':false,'mute':false,'client_modified':'0001-01-01T00:00:00Z'}",
         Some "hello")].
Proof. vm_compute. split; reflexivity. Qed.

(** ** The struct tags *)

(** The keys of an UploadInput in JSON, whatever its fields hold: Reader
    is never among them, and client_modified always is. *)
Lemma UploadInput_keys u :
  keys (Marshal (Some (InUpload u)))
  = ["path"; "mode"; "autorename"; "mute"; "client_modified"].
Proof. reflexivity. Qed.

(** [omitempty] does leave out a zero [uint64]. *)
Lemma SearchInput_keys_zero_pagination path query mode :
  keys (Marshal (Some (InSearch (SearchInput.mk path query 0 0 mode))))
  = ["path"; "query"; "mode"].
Proof. reflexivity. Qed.

(** C10, at the input where the code departs from it. An UploadInput
    whose ClientModified is the zero time is marshalled with a
    client_modified key, holding the zero instant: the omitempty option in
    the field's tag has no effect on a value of struct kind. *)
Theorem UploadInput_zero_ClientModified_is_marshalled :
  IsZero (UploadInput.ClientModified Sample.upload_input) = true
  /\ render (Marshal (Some (InUpload Sample.upload_input)))
     = text "{'path':'/a.txt','mode':'add','autorename':false,'mute':false,'client_modified':'0001-01-01T00:00:00Z'}".
Proof. split; reflexivity. Qed.

(** Every record that goes over the wire as JSON has snake-case keys
    only, except ListFolderOutput. *)
Lemma wire_keys_but_one :
  filter (fun r => negb (forallb is_wire_key r.2)) wire_records
  = [("ListFolderOutput", ["cursor"; "has_more"; "Entries"])].
Proof. reflexivity. Qed.

(** C8, at the field where the code departs from it. The Entries field of
    ListFolderOutput has no json tag, so its key in JSON is its Go name,
    which is not the key entries of the remote API; a ListFolderOutput is
    marshalled with the key Entries. *)
Theorem ListFolderOutput_Entries_key :
  map (fun f => (name f, tag f, json_name f)) ListFolderOutput.fields
  = [("Cursor", Some "cursor", Some "cursor");
     ("HasMore", Some "has_more", Some "has_more");
     ("Entries", None, Some "Entries")]
  /\ is_wire_key "Entries" = false
  /\ keys (encode_struct ListFolderOutput.fields (ListFolderOutput.mk "c" true [None]))
     = ["cursor"; "has_more"; "Entries"].
Proof. split_and!; reflexivity. Qed.

(** The decoder still stores the value of the key entries into Entries,
    because it matches keys to fields up to case when no field has the
    exact key. *)
Lemma ListFolderOutput_entries_decoded :
  Mock.dec_ListFolder
    (text "{'cursor':'c','has_more':true,'entries':[{'.tag':'folder','name':'docs'}]}")
    None
  = (Some (ListFolderOutput.mk "c" true
             [Some (Metadata.mk "folder" "docs" "" zeroTime zeroTime "" 0 "")]),
     None).
Proof. reflexivity. Qed.

(** * More of the facade *)

Section Methods.
Context {Srv : Type} (c : Client Srv).
Context {dec_GetMetadata : Decodable GetMetadataOutput.t}
        {dec_CreateFolder : Decodable CreateFolderOutput.t}
        {dec_Delete : Decodable DeleteOutput.t}
        {dec_Copy : Decodable CopyOutput.t}
        {dec_Move : Decodable MoveOutput.t}
        {dec_Restore : Decodable RestoreOutput.t}
        {dec_ListFolder : Decodable ListFolderOutput.t}
        {dec_Search : Decodable SearchOutput.t}
        {dec_Upload : Decodable UploadOutput.t}.

(** *** Every method is: maybe a look at the record, one request, the rest *)

Lemma call_respond_run {T} `{Decodable T} (inj : T -> Output) path in_ (w : World Srv) :
  let req := in_ ≫= (heap w !!.) in
  let res := (call c path req (net w)).1 in
  let t := as_Output inj (respond res) (mkWorld (heap w) (call c path req (net w)).2) in
  as_Output inj (c_call c path in_ ≫= respond) w
  = mkResult (out t) (world t) (EvCall path req res.1 res.2 :: events t).
Proof.
  unfold as_Output, c_call, mbind, M_bind. simpl.
  by destruct (call c path _ (net w)) as [[body err] n].
Qed.

Lemma download_respond_run {T} `{Decodable T} (inj : T -> Output) path in_ rd
    (w : World Srv) :
  let req := in_ ≫= (heap w !!.) in
  let res := (download c path req rd (net w)).1 in
  let t := as_Output inj (respond res)
                     (mkWorld (heap w) (download c path req rd (net w)).2) in
  as_Output inj (c_download c path in_ rd ≫= respond) w
  = mkResult (out t) (world t) (EvDownload path req rd res.1 res.2 :: events t).
Proof.
  unfold as_Output, c_download, mbind, M_bind. simpl.
  by destruct (download c path _ rd (net w)) as [[body err] n].
Qed.

Lemma Search_stuck in_ w :
  can_start OpSearch (in_ ≫= (heap w !!.)) = false ->
  Search c in_ w = mkResult Panicked w [].
Proof.
  intros Hs. unfold Search, load_SearchInput. unfold mbind at 1, M_bind at 1.
  destruct (in_ ≫= (heap w !!.)) as [[]|]; try done; simpl; done.
Qed.

Lemma Upload_stuck in_ w :
  can_start OpUpload (in_ ≫= (heap w !!.)) = false ->
  Upload c in_ w = mkResult Panicked w [].
Proof.
  intros Hs. unfold Upload, load_UploadInput. unfold mbind at 1, M_bind at 1.
  destruct (in_ ≫= (heap w !!.)) as [[]|]; try done; simpl; done.
Qed.

(** A method whose pointer does not show the record it reads panics
    before it does anything. *)
Lemma run_stuck op in_ w :
  can_start op (in_ ≫= (heap w !!.)) = false ->
  run c op in_ w = mkResult Panicked w [].
Proof.
  destruct op; try discriminate; simpl; intros Hs; unfold as_Output.
  - by rewrite Search_stuck.
  - by rewrite Upload_stuck.
Qed.

Lemma Search_from_request in_ v w :
  in_ ≫= (heap w !!.) = Some (InSearch v) ->
  Search c in_ w
  = (c_call c "/files/search" in_ ≫= respond)
      (mkWorld (heap_after OpSearch in_ (heap w)) (net w)).
Proof.
  intros Hl. unfold Search, load_SearchInput, store_Input.
  unfold mbind at 1 2, M_bind at 1 2. rewrite Hl. simpl.
  destruct in_ as [l|]; [|done]. simpl in Hl. rewrite Hl.
  case_bool_decide; simpl.
  - exact (result_eta ((c_call c "/files/search" (Some l) ≫= respond) (mkWorld _ (net w)))).
  - destruct w as [h n]. exact (result_eta _).
Qed.

Lemma Upload_from_request in_ u w :
  in_ ≫= (heap w !!.) = Some (InUpload u) ->
  Upload c in_ w
  = (c_download c "/files/upload" in_ (UploadInput.Reader u) ≫= respond) w.
Proof.
  intros Hl. unfold Upload, load_UploadInput.
  unfold mbind at 1, M_bind at 1. rewrite Hl. simpl.
  exact (result_eta _).
Qed.

(** Otherwise the method makes its request, in the state it was called in
    and with the record as it is by then, and goes on with the answer. *)
Lemma run_shape op in_ w :
  can_start op (in_ ≫= (heap w !!.)) = true ->
  let h := heap_after op in_ (heap w) in
  let req := in_ ≫= (h !!.) in
  let res := (request c op req (net w)).1 in
  let t := finish op res (mkWorld h (request c op req (net w)).2) in
  run c op in_ w
  = mkResult (out t) (world t) (request_event op req res :: events t).
Proof.
  destruct op; simpl; intros Hs.
  1-7: apply call_respond_run.
  - destruct (in_ ≫= (heap w !!.)) as [[| | | | | | |v| |]|] eqn:Hl; try done.
    transitivity (as_Output OutSearch (c_call c "/files/search" in_ ≫= respond)
                            (mkWorld (heap_after OpSearch in_ (heap w)) (net w))).
    { unfold as_Output. by rewrite (Search_from_request in_ v w Hl). }
    apply call_respond_run.
  - destruct (in_ ≫= (heap w !!.)) as [[| | | | | | | |u|]|] eqn:Hl; try done.
    transitivity (as_Output OutUpload
                    (c_download c "/files/upload" in_ (UploadInput.Reader u) ≫= respond) w).
    { unfold as_Output. by rewrite (Upload_from_request in_ u w Hl). }
    rewrite download_respond_run. unfold request, request_event. simpl.
    by rewrite Hl.
  - unfold request, request_event, as_Output. simpl. rewrite Download_run.
    by destruct (download c _ _ _ _) as [[body [e|]] n].
Qed.

(** *** After the answer *)

Lemma finish_events op res (w : World Srv) :
  Forall (fun e => transport_result e = None) (events (finish op res w)).
Proof.
  destruct op; simpl; try apply respond_events. constructor.
Qed.

(** [respond] touches one stream, the body, and nothing else. *)
Lemma respond_frame {T} `{Decodable T} res (w : World Srv) :
  heap (world (respond (T:=T) res w)) = heap w
  /\ server (net (world (respond (T:=T) res w))) = server (net w)
  /\ forall h, res.1 <> Some h ->
       streams (net (world (respond (T:=T) res w))) !! h = streams (net w) !! h.
Proof.
  destruct res as [body [e|]]; [done|].
  destruct body as [b|]; [|done].
  unfold respond, defer_Close, json_Decode, body_Close.
  destruct (streams (net w) !! b) as [s|] eqn:Hs; [destruct (closed s)|]; simpl.
  - split_and!; [done..|]. intros h Hh. rewrite lookup_alter_ne; [done|congruence].
  - split_and!; [done..|]. intros h Hh.
    rewrite lookup_alter_ne, lookup_insert_ne; [done|congruence..].
  - split_and!; [done..|]. intros h Hh. rewrite lookup_alter_ne; [done|congruence].
Qed.

Lemma finish_frame op res (w : World Srv) :
  heap (world (finish op res w)) = heap w
  /\ server (net (world (finish op res w))) = server (net w)
  /\ forall h, res.1 <> Some h ->
       streams (net (world (finish op res w))) !! h = streams (net w) !! h.
Proof.
  destruct op; simpl; try apply respond_frame. done.
Qed.

Lemma accepts_can_start op l v (w : World Srv) :
  heap w !! l = Some v -> accepts op v = true ->
  can_start op (Some l ≫= (heap w !!.)) = true.
Proof. simpl. intros -> Ha. by destruct op, v. Qed.

Lemma heap_after_same op l v (h : gmap loc Input) :
  h !! l = Some v ->
  (forall s, v = InSearch s -> SearchInput.Mode s <> "") ->
  heap_after op (Some l) h = h.
Proof.
  intros Hl Hm. destruct op; try done. simpl. rewrite Hl.
  destruct v; try done. case_bool_decide; [|done]. by destruct (Hm v).
Qed.

(** *** The request of each method *)

(** X1. A method called with a pointer to a record of its input type
    (for Search: one whose Mode is not empty) makes one request: to its
    own endpoint, through [c.call] for the eight plain methods and
    through [c.download] for Upload and Download, with the record as the
    caller wrote it, and with the record's Reader as request body for
    Upload and no request body otherwise.  Nothing it does afterwards is
    a call of a primitive. *)
Theorem method_request op l v w :
  heap w !! l = Some v ->
  accepts op v = true ->
  (forall s, v = InSearch s -> SearchInput.Mode s <> "") ->
  exists rest,
    events (run c op (Some l) w)
    = request_event op (Some v) (request c op (Some v) (net w)).1 :: rest
    /\ Forall (fun e => transport_result e = None) rest.
Proof.
  intros Hl Ha Hm.
  rewrite (run_shape op (Some l) w (accepts_can_start op l v w Hl Ha)).
  rewrite (heap_after_same op l v (heap w) Hl Hm). simpl. rewrite Hl.
  eexists. split; [done|]. apply finish_events.
Qed.

(** X2. Whatever a method is called with, it calls a primitive of the
    transport at most once, and if it does, that call is the first thing
    it does that can be seen. *)
Theorem at_most_one_request op in_ w :
  events (run c op in_ w) = []
  \/ exists ev res rest,
      events (run c op in_ w) = ev :: rest
      /\ transport_result ev = Some res
      /\ Forall (fun e => transport_result e = None) rest.
Proof.
  destruct (can_start op (in_ ≫= (heap w !!.))) eqn:Hs.
  - right. rewrite (run_shape op in_ w Hs). simpl.
    do 3 eexists. split; [done|]. split; [|apply finish_events].
    unfold request_event. by destruct (uses_download op).
  - left. by rewrite (run_stuck op in_ w Hs).
Qed.

(** X3. Called with a nil pointer, Search and Upload panic at once: no
    request is made and the state is as it was.  The other eight methods
    do not look at the record: they make their request with the nil
    pointer as record. *)
Theorem nil_input op w :
  if derefs op
  then run c op None w = mkResult Panicked w []
  else exists rest,
         events (run c op None w)
         = request_event op None (request c op None (net w)).1 :: rest.
Proof.
  destruct (derefs op) eqn:Hd.
  - apply run_stuck. by destruct op.
  - assert (can_start op (None ≫= (heap w !!.)) = true) as Hs by (by destruct op).
    rewrite (run_shape op None w Hs).
    assert (heap_after op None (heap w) = heap w) as -> by (by destruct op).
    simpl. eauto.
Qed.

(** *** The answers of the transport *)

(** X4. When the primitive returns neither a body nor an error, each of
    the nine decoding methods panics right after the call (there is no
    body to close), and Download returns an output whose Body is nil,
    with no error. *)
Theorem nil_body_without_error op in_ w ev :
  ev ∈ events (run c op in_ w) ->
  transport_result ev = Some (None, None) ->
  events (run c op in_ w) = [ev]
  /\ out (run c op in_ w)
     = if decodes_json op then Panicked
       else Returned (Some (OutDownload (DownloadOutput.mk None)), None).
Proof.
  intros Hin Hev.
  destruct (run_ran c op in_ w) as [w'|ev' body' e' w' Hev'|ev' w' Hev' Hj
    |ev' b w' Hev' Hj Hc|ev' b bytes w' Hev' Hj Hc|ev' body' w' Hev' Hop];
    simpl in *; event_cases Hin; try congruence.
  - by rewrite Hj.
  - simpl. split; [done|]. repeat f_equal. congruence.
Qed.

(** X5. When the body decodes without an error, each of the nine decoding
    methods returns the output the decoder made of the bytes of the body,
    with a nil error. *)
Theorem decoded_output_returned op in_ w b bytes :
  EvDecode b (Some bytes) None ∈ events (run c op in_ w) ->
  exists o,
    decode_Output op bytes = (o, None)
    /\ out (run c op in_ w) = Returned (o, None).
Proof.
  intros Hin.
  destruct (run_ran c op in_ w) as [w'|ev' body' e' w' Hev'|ev' w' Hev' Hj
    |ev' b' w' Hev' Hj Hc|ev' b' bytes' w' Hev' Hj Hc|ev' body' w' Hev' Hop];
    simpl in *; event_cases Hin.
  destruct (decode_Output op bytes') as [o err] eqn:Hd. simpl in *.
  simplify_eq. eauto.
Qed.

(** X6. A method touches nothing but the response body of its own
    request: when it is over, the remote end, and every stream other than
    that body, are as the primitive left them.  So Upload neither reads
    nor closes the record's Reader itself; what happens to it is up to
    the primitive. *)
Theorem only_body_touched op in_ w :
  can_start op (in_ ≫= (heap w !!.)) = true ->
  let req := in_ ≫= (heap_after op in_ (heap w) !!.) in
  let res := (request c op req (net w)).1 in
  let n := (request c op req (net w)).2 in
  server (net (world (run c op in_ w))) = server n
  /\ forall h, res.1 <> Some h ->
       streams (net (world (run c op in_ w))) !! h = streams n !! h.
Proof.
  intros Hs req res n. rewrite (run_shape op in_ w Hs). simpl.
  destruct (finish_frame op res (mkWorld (heap_after op in_ (heap w)) n))
    as (_ & Hsrv & Hst).
  split; [exact Hsrv|exact Hst].
Qed.

(** *** Search, again *)

(** X7. After a call of Search on a record, the record's Mode is not
    empty; so a second call of Search on it leaves the local memory as
    the first one left it. *)
Theorem Search_twice l v w :
  heap w !! l = Some (InSearch v) ->
  let w1 := world (Search c (Some l) w) in
  (exists v1, heap w1 !! l = Some (InSearch v1) /\ SearchInput.Mode v1 <> "")
  /\ heap (world (Search c (Some l) w1)) = heap w1.
Proof.
  intros Hl w1.
  assert (exists v1, heap w1 !! l = Some (InSearch v1) /\ SearchInput.Mode v1 <> "")
    as (v1 & Hl1 & Hm1).
  { subst w1. rewrite (Search_heap c l v w Hl). case_bool_decide.
    - rewrite lookup_insert_eq. eauto.
    - eauto. }
  split; [eauto|].
  rewrite (Search_heap c l v1 w1 Hl1). by rewrite bool_decide_false.
Qed.

End Methods.

(** *** The methods over the sample client *)

(** X1 on a search for deleted files. *)
Lemma method_request_witness :
  let v := InSearch (SearchInput.mk "/docs" "report" 0 0 SearchModeDeletedFilename) in
  let w := Mock.start v None (Some Sample.search_body) None in
  heap w !! 1 = Some v
  /\ accepts OpSearch v = true
  /\ (forall s, v = InSearch s -> SearchInput.Mode s <> "")
  /\ exists rest,
      events (Mock.files OpSearch (Some 1) w)
      = request_event OpSearch (Some v) (request Mock.client OpSearch (Some v) (net w)).1
        :: rest
      /\ Forall (fun e => transport_result e = None) rest.
Proof.
  intros v w.
  assert (forall s, v = InSearch s -> SearchInput.Mode s <> "") as Hm
    by (intros s [= <-]; discriminate).
  split; [reflexivity|]. split; [reflexivity|]. split; [exact Hm|].
  exact (method_request Mock.client OpSearch 1 v w eq_refl eq_refl Hm).
Defined.

(** X4 on a call answered with neither a body nor an error. *)
Lemma nil_body_without_error_witness :
  let w := Mock.start Sample.metadata_input None None None in
  let ev := EvCall "/files/get_metadata" (Some Sample.metadata_input) None None in
  ev ∈ events (Mock.files OpGetMetadata (Some 1) w)
  /\ transport_result ev = Some (None, None)
  /\ events (Mock.files OpGetMetadata (Some 1) w) = [ev]
  /\ out (Mock.files OpGetMetadata (Some 1) w) = Panicked.
Proof.
  intros w ev.
  assert (ev ∈ events (Mock.files OpGetMetadata (Some 1) w)) as Hin
    by (vm_compute; left).
  split; [exact Hin|]. split; [reflexivity|].
  exact (nil_body_without_error Mock.client OpGetMetadata (Some 1) w ev Hin eq_refl).
Defined.

(** X5 on the sample upload. *)
Lemma decoded_output_returned_witness :
  let r := Mock.files OpUpload (Some 1) Sample.upload in
  EvDecode 8 (Some Sample.upload_body) None ∈ events r
  /\ exists o,
      @decode_Output Mock.dec_GetMetadata Mock.dec_CreateFolder Mock.dec_Delete
        Mock.dec_Copy Mock.dec_Move Mock.dec_Restore Mock.dec_ListFolder
        Mock.dec_Search Mock.dec_Upload OpUpload Sample.upload_body = (o, None)
      /\ out r = Returned (o, None).
Proof.
  intros r.
  assert (EvDecode 8 (Some Sample.upload_body) None ∈ events r) as Hin
    by (vm_compute; right; left).
  split; [exact Hin|].
  exact (decoded_output_returned Mock.client OpUpload (Some 1) Sample.upload
           8 Sample.upload_body Hin).
Defined.

(** X6 on the sample upload: the reader, at handle 7, is as the client
    left it. *)
Lemma only_body_touched_witness :
  let w := Sample.upload in
  let req := Some 1 ≫= (heap_after OpUpload (Some 1) (heap w) !!.) in
  let res := (request Mock.client OpUpload req (net w)).1 in
  let n := (request Mock.client OpUpload req (net w)).2 in
  can_start OpUpload (Some 1 ≫= (heap w !!.)) = true
  /\ server (net (world (Mock.files OpUpload (Some 1) w))) = server n
  /\ forall h, res.1 <> Some h ->
       streams (net (world (Mock.files OpUpload (Some 1) w))) !! h = streams n !! h.
Proof.
  intros w req res n. split; [reflexivity|].
  exact (only_body_touched Mock.client OpUpload (Some 1) w eq_refl).
Defined.

(** X7 on the sample search. *)
Lemma Search_twice_witness :
  let w1 := world (Search Mock.client (dec_Search := Mock.dec_Search) (Some 1)
                          Sample.search) in
  heap Sample.search !! 1 = Some (InSearch Sample.search_input)
  /\ (exists v1, heap w1 !! 1 = Some (InSearch v1) /\ SearchInput.Mode v1 <> "")
  /\ heap (world (Search Mock.client (dec_Search := Mock.dec_Search) (Some 1) w1))
     = heap w1.
Proof.
  intros w1. split; [reflexivity|].
  exact (Search_twice Mock.client (dec_Search := Mock.dec_Search)
           1 Sample.search_input Sample.search eq_refl).
Defined.

(** ** More of the struct tags *)

(** X8. A SearchInput is marshalled with the keys path, query and mode
    whatever it holds, with start exactly when Start is not zero, and with
    max_results exactly when MaxResults is not zero. *)
Theorem SearchInput_marshalled_keys v :
  keys (Marshal (Some (InSearch v)))
  = ["path"; "query"]
    ++ (if (SearchInput.Start v =? 0)%N then [] else ["start"])
    ++ (if (SearchInput.MaxResults v =? 0)%N then [] else ["max_results"])
    ++ ["mode"].
Proof.
  destruct v as [p q st mx md]. simpl.
  unfold encode_struct, encode_field. simpl.
  by destruct (st =? 0)%N, (mx =? 0)%N.
Qed.

(** Strings that are valid UTF-8 go through the encoder and the decoder
    as they are. *)
Lemma coerce_go_valid s : forall k, valid_go k s = true -> coerce_go k s = s.
Proof.
  induction s as [|a t IH]; intros k Hv; [done|].
  destruct k as [|k]; cbn [valid_go coerce_go] in *.
  - destruct (rune_len (String a t)) as [|n]; [done|]. by rewrite IH.
  - by rewrite IH.
Qed.

Lemma toValidUTF8_valid s : ValidString s = true -> toValidUTF8 s = s.
Proof. apply coerce_go_valid. Qed.

(** X9. Two input records of the same type that agree on every field
    other than Reader are marshalled to the same JSON.  Conversely, for
    the input types that hold no time (all but UploadInput), two records
    whose strings are valid UTF-8 and that are marshalled to the same JSON
    are equal: the JSON of such a request loses nothing of the record. *)
Theorem Marshal_same v w :
  same_type v w = true ->
  (without_Reader v = without_Reader w -> Marshal (Some v) = Marshal (Some w))
  /\ (carries_Time v = false ->
      forallb ValidString (strings_of v ++ strings_of w) = true ->
      Marshal (Some v) = Marshal (Some w) -> v = w).
Proof.
  intros Hty. split.
  - destruct v as [[]|[]|[]|[]|[]|[]|[]|[]|[]|[]], w as [[]|[]|[]|[]|[]|[]|[]|[]|[]|[]];
      try discriminate Hty; cbn [without_Reader]; intros [=]; subst; reflexivity.
  - intros Ht Hv.
    destruct v as [[]|[]|[]|[]|[]|[]|[]|[? ? st mx ?]|[]|[]],
             w as [[]|[]|[]|[]|[]|[]|[]|[? ? st' mx' ?]|[]|[]];
      try discriminate Hty; try discriminate Ht.
    all: cbn [strings_of app forallb GetMetadataInput.Path CreateFolderInput.Path
           DeleteInput.Path CopyInput.FromPath CopyInput.ToPath MoveInput.FromPath
           MoveInput.ToPath RestoreInput.Path RestoreInput.Rev ListFolderInput.Path
           SearchInput.Path SearchInput.Query SearchInput.Mode DownloadInput.Path] in Hv;
      repeat (apply andb_true_iff in Hv as [? Hv]).
    all: unfold Marshal, encode_struct, encode_field; simpl.
    all: rewrite ?toValidUTF8_valid by done.
    all: try (intros [=]; by subst).
    destruct (st =? 0)%N eqn:H1', (mx =? 0)%N eqn:H2',
             (st' =? 0)%N eqn:H3', (mx' =? 0)%N eqn:H4'; cbn -[pretty];
      intros [=]; subst;
      repeat match goal with
             | H : (_ =? _)%N = true |- _ => apply N.eqb_eq in H; subst
             | H : pretty _ = pretty _ |- _ => apply (inj pretty) in H; subst
             end; done.
Qed.

(** X9 on two uploads of the same file from different readers, and on two
    searches. *)
Lemma Marshal_same_witness :
  let v := InUpload Sample.upload_input in
  let w := InUpload (UploadInput.mk "/a.txt" WriteModeAdd false false zeroTime (Some 9)) in
  let s := InSearch Sample.search_input in
  (same_type v w = true
   /\ without_Reader v = without_Reader w
   /\ Marshal (Some v) = Marshal (Some w))
  /\ (same_type s s = true
      /\ carries_Time s = false
      /\ forallb ValidString (strings_of s ++ strings_of s) = true
      /\ (Marshal (Some s) = Marshal (Some s) -> s = s)).
Proof.
  intros v w s. split.
  - split; [reflexivity|]. split; [reflexivity|].
    exact (proj1 (Marshal_same v w eq_refl) eq_refl).
  - split; [reflexivity|]. split; [reflexivity|]. split; [reflexivity|].
    exact (proj2 (Marshal_same s s eq_refl) eq_refl eq_refl).
Defined.

(** *** Numbers and records through JSON *)

Lemma string_append_cons x (a b : string) : String x a +:+ b = String x (a +:+ b).
Proof. reflexivity. Qed.

Lemma string_append_nil_r (a : string) : a +:+ "" = a.
Proof. induction a as [|x a IH]; [done|]. by rewrite string_append_cons, IH. Qed.

Lemma string_append_assoc (a b d : string) : (a +:+ b) +:+ d = a +:+ (b +:+ d).
Proof. induction a as [|x a IH]; [done|]. by rewrite !string_append_cons, IH. Qed.

Lemma string_length_append (a b : string) :
  String.length (a +:+ b) = (String.length a + String.length b)%nat.
Proof.
  induction a as [|x a IH]; [done|]. rewrite string_append_cons. simpl. by rewrite IH.
Qed.

Lemma all_digits_app a b : all_digits (a +:+ b) = all_digits a && all_digits b.
Proof.
  induction a as [|x a IH]; [done|].
  rewrite string_append_cons. simpl. by rewrite IH, andb_assoc.
Qed.

Lemma digits_val_app acc a b : digits_val acc (a +:+ b) = digits_val (digits_val acc a) b.
Proof.
  revert acc. induction a as [|x a IH]; intros acc; [done|].
  rewrite string_append_cons. simpl. by rewrite IH.
Qed.

Lemma pretty_N_char_digit k :
  (k < 10)%N -> is_digit (pretty_N_char k) = true /\ digit_val (pretty_N_char k) = k.
Proof.
  intros Hk. unfold pretty_N_char.
  destruct k as [|p]; [done|].
  do 4 (destruct p as [p|p|]; try done; try lia).
Qed.

(** The decimal text of a number is made of digits, and reads back as the
    number. *)
Lemma pretty_N_go_digits x :
  forall s, exists d,
    pretty_N_go x s = d +:+ s
    /\ all_digits d = true
    /\ (forall acc, digits_val acc d = (acc * 10 ^ N.of_nat (String.length d) + x)%N)
    /\ (x <> 0%N -> d <> "").
Proof.
  induction (N.lt_wf_0 x) as [x _ IH]. intros s.
  destruct (decide (x = 0%N)) as [->|Hx].
  - exists "". rewrite pretty_N_go_0. split_and!; try done. intros acc. simpl. lia.
  - rewrite pretty_N_go_step by lia.
    destruct (IH (x `div` 10)%N) with (s := String (pretty_N_char (x `mod` 10)) s)
      as (d & Hd & Hall & Hval & _).
    { apply N.div_lt; lia. }
    destruct (pretty_N_char_digit (x `mod` 10)%N) as [Hdig Hdv].
    { apply N.mod_lt. lia. }
    exists (d +:+ String (pretty_N_char (x `mod` 10)) "").
    split_and!.
    + by rewrite Hd, string_append_assoc.
    + rewrite all_digits_app, Hall. simpl. by rewrite Hdig.
    + intros acc. rewrite digits_val_app, Hval. simpl. rewrite Hdv.
      rewrite string_length_append. simpl.
      rewrite Nat.add_1_r, Nat2N.inj_succ, N.pow_succ_r'.
      pose proof (N.div_mod x 10). lia.
    + by destruct d.
Qed.

(** A [uint64] written in decimal, as the encoder writes it, is read back
    by [ParseUint] as the same number. *)
Lemma ParseUint_pretty (n : N) : (n <= maxUint64)%N -> ParseUint (pretty n) = Some n.
Proof.
  intros Hn. unfold pretty, pretty_N. case_decide as H0; [by subst|].
  destruct (pretty_N_go_digits n "") as (d & Hd & Hall & Hval & Hne).
  rewrite Hd, string_append_nil_r.
  unfold ParseUint. destruct d as [|x d]; [by destruct Hne|].
  rewrite Hall, Hval. simpl (0 * _)%N.
  rewrite N.add_0_l. by apply N.leb_le in Hn as ->.
Qed.

(** X10. A Metadata goes through JSON unchanged: stored into any
    Metadata, the JSON object the encoder makes of a record [m] (with
    strings that are valid UTF-8, a size that fits 64 bits and times of
    the form the model reads) gives [m] back, with no error.  So each of
    the eight keys is written from and read into the same field. *)
Theorem Metadata_round_trip m m0 :
  forallb ValidString [Metadata.Tag m; Metadata.Name m; Metadata.PathLower m;
                       Metadata.Rev m; Metadata.ID m] = true ->
  (Metadata.Size m <= maxUint64)%N ->
  parseRFC3339 (RFC3339 (Metadata.ClientModified m)) = Some (Metadata.ClientModified m) ->
  parseRFC3339 (RFC3339 (Metadata.ServerModified m)) = Some (Metadata.ServerModified m) ->
  store_struct "dropbox.Metadata" Metadata.fields (encode_struct Metadata.fields m) m0
  = (m, Done).
Proof.
  intros Hv Hs Hc Hm. destruct m as [tg nm pl [cm] [sm] rv sz id], m0.
  cbn [Metadata.Size Metadata.ClientModified Metadata.ServerModified RFC3339
       Metadata.Tag Metadata.Name Metadata.PathLower Metadata.Rev Metadata.ID
       forallb] in *.
  repeat (apply andb_true_iff in Hv as [? Hv]).
  apply ParseUint_pretty in Hs.
  lazy -[ParseUint pretty pretty_N parseRFC3339 toValidUTF8].
  rewrite !(toValidUTF8_valid tg), !(toValidUTF8_valid nm), !(toValidUTF8_valid pl),
    !(toValidUTF8_valid rv), !(toValidUTF8_valid id) by done.
  rewrite Hc. lazy -[ParseUint pretty pretty_N parseRFC3339 toValidUTF8].
  rewrite Hm. lazy -[ParseUint pretty pretty_N parseRFC3339 toValidUTF8].
  rewrite Hs. reflexivity.
Qed.

(** X10 on the metadata of a file. *)
Lemma Metadata_round_trip_witness :
  let m := Metadata.mk "file" "a.txt" "/a.txt" (mkTime "2015-05-12T15:50:38Z")
                       (mkTime "2015-05-12T15:50:39Z") "a1c10ce0dd78" 5 "id:a4ayc" in
  forallb ValidString [Metadata.Tag m; Metadata.Name m; Metadata.PathLower m;
                       Metadata.Rev m; Metadata.ID m] = true
  /\ (Metadata.Size m <= maxUint64)%N
  /\ parseRFC3339 (RFC3339 (Metadata.ClientModified m)) = Some (Metadata.ClientModified m)
  /\ parseRFC3339 (RFC3339 (Metadata.ServerModified m)) = Some (Metadata.ServerModified m)
  /\ store_struct "dropbox.Metadata" Metadata.fields (encode_struct Metadata.fields m)
                  Metadata.zero
     = (m, Done).
Proof.
  intros m.
  assert (Metadata.Size m <= maxUint64)%N as H by (vm_compute; discriminate).
  split; [reflexivity|]. split; [exact H|]. split; [reflexivity|]. split; [reflexivity|].
  exact (Metadata_round_trip m Metadata.zero eq_refl H eq_refl eq_refl).
Defined.
